(** * LoadCellSavior: the ingestion loop and the SIGINT handler of [lcs.py]

    A shallow embedding of [src/lcs.py].  The program keeps its session in
    module-level globals ([arduino], [csv_text], [ms_at_start],
    [ms_since_start], [sigint_count] and the configuration), reads lines
    from a serial port in [loop], and is meant to save [csv_text] from the
    SIGINT handler [handle_sigint].

    Conventions of the model:
    - Python [str] values are lists of Unicode code points ([text]);
      [bytes] values are lists of [Byte.byte].
    - Python [int] is [Z].  [int(time.time() * 1000)] is a clock sample
      supplied by the environment as a [Z].
    - The globals and the part of the environment the program touches (the
      output directory, the console) form one record [State]; code is
      written in a state-and-exception monad [M].
    - Paths follow the POSIX flavour of [os.path] and [glob]. *)

From Stdlib Require Import ZArith List Bool Lia String Ascii.
From Stdlib.Strings Require Import Byte.
From Stdlib Require Import Sorted.
From Stdlib Require Decimal DecimalPos DecimalZ.
Import ListNotations.
Local Open Scope Z_scope.

(** ** Text *)

Definition text := list Z.

(** A Rocq string literal read as a Python [str]: one code point per
    character. *)
Definition str (s : string) : text :=
  map (fun a => Z.of_N (N_of_ascii a)) (list_ascii_of_string s).

Definition text_eqb (a b : text) : bool :=
  if list_eq_dec Z.eq_dec a b then true else false.

Module Char.
Definition newline : Z := 10.
Definition plus : Z := 43.
Definition comma : Z := 44.
Definition minus : Z := 45.
Definition dot : Z := 46.
Definition slash : Z := 47.
Definition underscore : Z := 95.
End Char.

(** *** Whitespace

    [str.strip()] removes the code points for which [str.isspace()] holds. *)
Definition isspace (c : Z) : bool :=
  ((9 <=? c) && (c <=? 13)) || ((28 <=? c) && (c <=? 32))
  || (c =? 133) || (c =? 160) || (c =? 5760)
  || ((8192 <=? c) && (c <=? 8202))
  || (c =? 8232) || (c =? 8233) || (c =? 8239) || (c =? 8287)
  || (c =? 12288).

(** [int()] keeps ASCII as it is and turns the other Unicode spaces into a
    blank before it skips blanks, so the file, group, record and unit
    separators (28..31) are not skipped by [int()]. *)
Definition int_isspace (c : Z) : bool :=
  isspace c && negb ((28 <=? c) && (c <=? 31)).

Fixpoint lstrip_with (ws : Z -> bool) (s : text) : text :=
  match s with
  | [] => []
  | c :: r => if ws c then lstrip_with ws r else s
  end.

Definition strip_with (ws : Z -> bool) (s : text) : text :=
  rev (lstrip_with ws (rev (lstrip_with ws s))).

(** [s.strip()] *)
Definition strip (s : text) : text := strip_with isspace s.

(** *** Decimal digits

    The code points of Unicode general category Nd come in runs of ten; the
    list holds the code point of the zero of each run (Unicode 14.0, the
    database of CPython 3.11). *)
Definition decimal_zeros : list Z :=
  [ 48; 1632; 1776; 1984; 2406; 2534; 2662; 2790; 2918; 3046; 3174; 3302;
    3430; 3558; 3664; 3792; 3872; 4160; 4240; 6112; 6160; 6470; 6608; 6784;
    6800; 6992; 7088; 7232; 7248; 42528; 43216; 43264; 43472; 43504; 43600;
    44016; 65296; 66720; 68912; 69734; 69872; 69942; 70096; 70384; 70736;
    70864; 71248; 71360; 71472; 71904; 72016; 72784; 73040; 73120; 92768;
    92864; 93008; 120782; 120792; 120802; 120812; 120822; 123200; 123632;
    125264; 130032 ].

Fixpoint decimal_in (zs : list Z) (c : Z) : option Z :=
  match zs with
  | [] => None
  | z :: zs' =>
      if (z <=? c) && (c <? z + 10) then Some (c - z) else decimal_in zs' c
  end.

(** The decimal value of a code point, if it is a decimal digit. *)
Definition decimal (c : Z) : option Z := decimal_in decimal_zeros c.

(** *** [int(s)] for a [str] argument, base ten

    Optional surrounding whitespace, an optional sign, then one or more
    decimal digits, where single underscores may separate digits.  [None]
    stands for [ValueError].  The interpreter's limit on the number of
    digits is taken as switched off. *)

(** The rest of a digit string, after a digit, with [acc] the value so far. *)
Fixpoint int_digits (acc : Z) (s : text) : option Z :=
  match s with
  | [] => Some acc
  | c :: r =>
      if c =? Char.underscore then
        match r with
        | d :: r' =>
            match decimal d with
            | Some v => int_digits (acc * 10 + v) r'
            | None => None
            end
        | [] => None
        end
      else
        match decimal c with
        | Some v => int_digits (acc * 10 + v) r
        | None => None
        end
  end.

Definition int_unsigned (s : text) : option Z :=
  match s with
  | [] => None
  | d :: r =>
      match decimal d with
      | Some v => int_digits v r
      | None => None
      end
  end.

Definition py_int (s : text) : option Z :=
  match strip_with int_isspace s with
  | [] => None
  | c :: r =>
      if c =? Char.minus then option_map Z.opp (int_unsigned r)
      else if c =? Char.plus then int_unsigned r
      else int_unsigned (c :: r)
  end.

(** *** Formatting an [int] in an f-string *)

Fixpoint uint_text (d : Decimal.uint) : text :=
  match d with
  | Decimal.Nil => []
  | Decimal.D0 d => 48 :: uint_text d
  | Decimal.D1 d => 49 :: uint_text d
  | Decimal.D2 d => 50 :: uint_text d
  | Decimal.D3 d => 51 :: uint_text d
  | Decimal.D4 d => 52 :: uint_text d
  | Decimal.D5 d => 53 :: uint_text d
  | Decimal.D6 d => 54 :: uint_text d
  | Decimal.D7 d => 55 :: uint_text d
  | Decimal.D8 d => 56 :: uint_text d
  | Decimal.D9 d => 57 :: uint_text d
  end.

(** [f"{z}"] for an [int] [z] *)
Definition format_int (z : Z) : text :=
  match Z.to_int z with
  | Decimal.Pos d => uint_text d
  | Decimal.Neg d => Char.minus :: uint_text d
  end.

(** *** [s.split(sep)] for a one-character separator: never empty *)
Fixpoint split (sep : Z) (s : text) : list text :=
  match s with
  | [] => [[]]
  | c :: r =>
      if c =? sep then [] :: split sep r
      else match split sep r with
           | p :: ps => (c :: p) :: ps
           | [] => [[c]]
           end
  end.

(** *** [os.path] (posixpath) *)

(** [s.rfind(c)]: the index of the last [c] in [s], or -1. *)
Fixpoint rfind_from (i : Z) (c : Z) (s : text) (found : Z) : Z :=
  match s with
  | [] => found
  | x :: r => rfind_from (i + 1) c r (if x =? c then i else found)
  end.

Definition rfind (c : Z) (s : text) : Z := rfind_from 0 c s (-1).

(** [s[i:j]] for [0 <= i] *)
Definition slice (s : text) (i j : Z) : text :=
  firstn (Z.to_nat (j - i)) (skipn (Z.to_nat i) s).

(** [os.path.basename(p)]: what follows the last slash. *)
Definition basename (p : text) : text :=
  skipn (Z.to_nat (rfind Char.slash p + 1)) p.

(** [os.path.splitext(p)[0]]: [p] without its extension.  The extension
    starts at the last dot of the last path component, unless only dots
    precede that dot in the component. *)
Definition splitext_root (p : text) : text :=
  let sepIndex := rfind Char.slash p in
  let dotIndex := rfind Char.dot p in
  if (sepIndex <? dotIndex)
     && existsb (fun c => negb (c =? Char.dot)) (slice p (sepIndex + 1) dotIndex)
  then firstn (Z.to_nat dotIndex) p
  else p.

(** [os.path.join(d, name)] for a relative [name] *)
Definition path_join (d name : text) : text :=
  match rev d with
  | [] => name
  | c :: _ => if c =? Char.slash then d ++ name else d ++ Char.slash :: name
  end.

(** *** [bytes.decode("utf-8")], strict: [None] stands for
    [UnicodeDecodeError]. *)

Definition continuation (b : Z) : bool := (128 <=? b) && (b <=? 191).

Fixpoint utf8_decode (bs : list Z) : option text :=
  match bs with
  | [] => Some []
  | b0 :: r0 =>
      if b0 <? 128 then option_map (cons b0) (utf8_decode r0)
      else if (194 <=? b0) && (b0 <=? 223) then
        match r0 with
        | b1 :: r1 =>
            if continuation b1
            then option_map (cons ((b0 - 192) * 64 + (b1 - 128)))
                            (utf8_decode r1)
            else None
        | _ => None
        end
      else if (224 <=? b0) && (b0 <=? 239) then
        match r0 with
        | b1 :: b2 :: r2 =>
            if ((if b0 =? 224 then 160 else 128) <=? b1)
               && (b1 <=? (if b0 =? 237 then 159 else 191))
               && continuation b2
            then option_map
                   (cons ((b0 - 224) * 4096 + (b1 - 128) * 64 + (b2 - 128)))
                   (utf8_decode r2)
            else None
        | _ => None
        end
      else if (240 <=? b0) && (b0 <=? 244) then
        match r0 with
        | b1 :: b2 :: b3 :: r3 =>
            if ((if b0 =? 240 then 144 else 128) <=? b1)
               && (b1 <=? (if b0 =? 244 then 143 else 191))
               && continuation b2 && continuation b3
            then option_map
                   (cons ((b0 - 240) * 262144 + (b1 - 128) * 4096
                          + (b2 - 128) * 64 + (b3 - 128)))
                   (utf8_decode r3)
            else None
        | _ => None
        end
      else None
  end.

Definition decode (bs : list byte) : option text :=
  utf8_decode (map (fun b => Z.of_N (Byte.to_N b)) bs).

(** A string literal read as [bytes]. *)
Definition bytes (s : string) : list byte := list_byte_of_string s.

(** ** The program state *)

(** [serial.Serial]: the program only looks at [is_open] and calls
    [readline] and [close]. *)
Record Serial := { is_open : bool }.

(** What reaches the console: records of the logger [log], calls of
    [print], and the traceback the interpreter prints for an exception
    nobody caught. *)
Inductive exn : Type :=
| SystemExit (status : Z)
| TypeError
| UnboundLocalError
| AttributeError
| ValueError
| IndexError
| UnicodeDecodeError.

Inductive output : Type :=
| LogInfo (msg : text)
| LogFatal (msg : text)
| Print (msg : text)
| Traceback (e : exn).

(** The module-level globals of [lcs.py] (lines 17-24 and 157), the
    entries of the directory [OUTPUT_DIR] names (file name and contents, in
    the order the operating system lists them) and the console. *)
Record State := mkState {
  OUTPUT_DIR : text;
  BAUD : Z;
  PORT : text;
  VERBOSE : bool;
  arduino : option Serial;
  csv_text : text;
  ms_at_start : Z;
  ms_since_start : Z;
  sigint_count : Z;
  directory : list (text * text);
  console : list output
}.

Definition set_arduino (a : option Serial) (w : State) : State :=
  mkState (OUTPUT_DIR w) (BAUD w) (PORT w) (VERBOSE w) a (csv_text w)
          (ms_at_start w) (ms_since_start w) (sigint_count w) (directory w)
          (console w).

Definition set_csv_text (t : text) (w : State) : State :=
  mkState (OUTPUT_DIR w) (BAUD w) (PORT w) (VERBOSE w) (arduino w) t
          (ms_at_start w) (ms_since_start w) (sigint_count w) (directory w)
          (console w).

Definition set_ms_at_start (z : Z) (w : State) : State :=
  mkState (OUTPUT_DIR w) (BAUD w) (PORT w) (VERBOSE w) (arduino w)
          (csv_text w) z (ms_since_start w) (sigint_count w) (directory w)
          (console w).

Definition set_ms_since_start (z : Z) (w : State) : State :=
  mkState (OUTPUT_DIR w) (BAUD w) (PORT w) (VERBOSE w) (arduino w)
          (csv_text w) (ms_at_start w) z (sigint_count w) (directory w)
          (console w).

Definition set_directory (d : list (text * text)) (w : State) : State :=
  mkState (OUTPUT_DIR w) (BAUD w) (PORT w) (VERBOSE w) (arduino w)
          (csv_text w) (ms_at_start w) (ms_since_start w) (sigint_count w) d
          (console w).

Definition emit (o : output) (w : State) : State :=
  mkState (OUTPUT_DIR w) (BAUD w) (PORT w) (VERBOSE w) (arduino w)
          (csv_text w) (ms_at_start w) (ms_since_start w) (sigint_count w)
          (directory w) (console w ++ [o]).

(** Line 22. *)
Definition csv_header : text := str "Time_Ms,LoadCellReading_Grams" ++ [Char.newline].

(** The globals as the module body leaves them, before [startup] runs. *)
Definition initial_state (dir : list (text * text)) : State :=
  {| OUTPUT_DIR := str "./OutputData";
     BAUD := 9600;
     PORT := str "COM4";
     VERBOSE := false;
     arduino := None;
     csv_text := csv_header;
     ms_at_start := 0;
     ms_since_start := 0;
     sigint_count := 0;
     directory := dir;
     console := [] |}.

(** ** A state-and-exception monad *)

Inductive outcome (A : Type) : Type :=
| Returned (a : A)
| Raised (e : exn).
Arguments Returned {A} a.
Arguments Raised {A} e.

Definition M (A : Type) : Type := State -> outcome A * State.

Definition ret {A} (a : A) : M A := fun w => (Returned a, w).

Definition bind {A B} (m : M A) (k : A -> M B) : M B :=
  fun w =>
    match m w with
    | (Returned a, w') => k a w'
    | (Raised e, w') => (Raised e, w')
    end.

Definition raise {A} (e : exn) : M A := fun w => (Raised e, w).
Definition gets {A} (f : State -> A) : M A := fun w => (Returned (f w), w).
Definition modify (f : State -> State) : M unit := fun w => (Returned tt, f w).

Declare Scope py_scope.
Delimit Scope py_scope with py.
Notation "x <- m ;; k" := (bind m (fun x => k))
  (at level 61, m at next level, right associativity) : py_scope.
Notation "m ;; k" := (bind m (fun _ => k))
  (at level 61, right associativity) : py_scope.
Local Open Scope py_scope.

(** [sys.exit(n)] raises [SystemExit(n)]. *)
Definition sys_exit {A} (n : Z) : M A := raise (SystemExit n).
Definition log_info (msg : text) : M unit := modify (emit (LogInfo msg)).
Definition log_fatal (msg : text) : M unit := modify (emit (LogFatal msg)).
Definition print (msg : text) : M unit := modify (emit (Print msg)).

(** ** [startup], from the connection on (lines 120-129)

    The arguments have been read into the configuration globals.
    [connected] tells whether [serial.Serial(PORT, BAUD)] succeeds; [now] is
    [int(time.time() * 1000)] at line 128.  The [while True: loop()] that
    follows is [run] below. *)
Definition startup_connect (connected : bool) (now : Z) : M unit :=
  port <- gets PORT ;;
  baud <- gets BAUD ;;
  (if connected then modify (set_arduino (Some {| is_open := true |}))
   else
     log_fatal (str "Serial Exception: Could not connect to " ++ port
                ++ str " at " ++ format_int baud ++ str " baud.") ;;
     log_fatal (str "Check your connections and try again.") ;;
     sys_exit 1) ;;
  log_info (str "Connected to " ++ port ++ str " at " ++ format_int baud
            ++ str " baud.") ;;
  modify (set_ms_at_start now) ;;
  modify (set_ms_since_start 0).

(** ** [loop] (lines 133-155) *)

(** [arduino is None or not arduino.is_open] *)
Definition connection_closed (a : option Serial) : bool :=
  match a with
  | None => true
  | Some s => negb (is_open s)
  end.

(** Lines 135-137. *)
Definition check_connection : M unit :=
  a <- gets arduino ;;
  if connection_closed a then
    log_fatal (str "Serial connection closed unexpectedly.") ;;
    sys_exit 1
  else ret tt.

(** Lines 140-155, for [raw] the [str] that [decode] returned: strip it,
    drop it when it is empty or no integer, else record it.  [now] is
    [int(time.time() * 1000)] at line 151. *)
Definition record_line (raw : text) (now : Z) : M unit :=
  let data := strip raw in
  if text_eqb data [] then ret tt
  else
    match py_int data with
    | None => ret tt
    | Some data =>
        start <- gets ms_at_start ;;
        modify (set_ms_since_start (now - start)) ;;
        ms <- gets ms_since_start ;;
        csv <- gets csv_text ;;
        modify (set_csv_text
                  (csv ++ format_int ms ++ [Char.comma] ++ format_int data
                       ++ [Char.newline])) ;;
        verbose <- gets VERBOSE ;;
        if verbose
        then print (format_int ms ++ str " ms: " ++ format_int data
                    ++ str " grams")
        else ret tt
    end.

(** Lines 140-155: [line] is what [arduino.readline()] returns. *)
Definition read_line (line : list byte) (now : Z) : M unit :=
  match decode line with
  | None => raise UnicodeDecodeError
  | Some raw => record_line raw now
  end.

Definition loop (line : list byte) (now : Z) : M unit :=
  check_connection ;;
  read_line line now.

(** ** [handle_sigint] (lines 157-186) *)

(** Exceptions in code that does not touch the state. *)
Definition obind {A B} (o : outcome A) (k : A -> outcome B) : outcome B :=
  match o with
  | Returned a => k a
  | Raised e => Raised e
  end.

Definition lift {A} (o : outcome A) : M A := fun w => (o, w).

(** [arduino.close()] *)
Definition close_serial : M unit :=
  a <- gets arduino ;;
  match a with
  | None => raise AttributeError
  | Some _ => modify (set_arduino (Some {| is_open := false |}))
  end.

(** [fnmatch] of a directory entry against [*.csv], as [glob] does it: the
    name ends in [.csv] and, the pattern not starting with a dot, the name
    does not either. *)
Definition fnmatch_csv (name : text) : bool :=
  match name with
  | [] => false
  | c :: _ =>
      negb (c =? Char.dot)
      && (4 <=? Z.of_nat (List.length name))
      && text_eqb (skipn (List.length name - 4) name) (str ".csv")
  end.

(** The directory part [glob] takes from the pattern [d ++ "/*.csv"], as
    [os.path.split] gives it: trailing slashes go, unless nothing else is
    there. *)
Definition glob_dirname (d : text) : text :=
  let head := d ++ [Char.slash] in
  if forallb (fun c => c =? Char.slash) head then head
  else rev (lstrip_with (fun c => c =? Char.slash) (rev head)).

(** Line 174: [glob.glob(f"{OUTPUT_DIR}/*.csv")], for an [OUTPUT_DIR]
    without wildcard characters: the matching entries of the directory,
    each joined to the directory part of the pattern. *)
Definition glob_csv (w : State) : list text :=
  map (path_join (glob_dirname (OUTPUT_DIR w)))
      (filter fnmatch_csv (map fst (directory w))).

(** The element of the comprehension of line 176:
    [int(os.path.splitext(os.path.basename(file))[0].split('_')[1])]. *)
Definition file_number (file : text) : outcome Z :=
  match nth_error (split Char.underscore (splitext_root (basename file))) 1 with
  | None => Raised IndexError
  | Some field =>
      match py_int field with
      | None => Raised ValueError
      | Some n => Returned n
      end
  end.

(** Line 176: the comprehension runs over [files] from left to right and
    stops at the first exception. *)
Fixpoint file_numbers (files : list text) : outcome (list Z) :=
  match files with
  | [] => Returned []
  | file :: rest =>
      obind (file_number file) (fun n =>
      obind (file_numbers rest) (fun ns => Returned (n :: ns)))
  end.

(** [max(numbers)]: [ValueError] on an empty list. *)
Definition py_max (numbers : list Z) : outcome Z :=
  match numbers with
  | [] => Raised ValueError
  | n :: rest => Returned (fold_left Z.max rest n)
  end.

(** Lines 176-180: from the result of [glob] to the new file name. *)
Definition next_filename (files : list text) : outcome text :=
  obind (file_numbers files) (fun numbers =>
  obind (py_max numbers) (fun highest =>
  Returned (str "LoadCellData_" ++ format_int (highest + 1) ++ str ".csv"))).

(** [open(path, "w")] and [f.write(content)] on an entry of the output
    directory: an existing file is replaced, a new one is added. *)
Fixpoint write_file (name content : text) (d : list (text * text))
  : list (text * text) :=
  match d with
  | [] => [(name, content)]
  | (n, c) :: r =>
      if text_eqb n name then (name, content) :: r
      else (n, c) :: write_file name content r
  end.

(** Lines 167-186: close the port, choose the file name, write, exit. *)
Definition save_data : M unit :=
  close_serial ;;
  files <- gets glob_csv ;;
  filename <- lift (next_filename files) ;;
  csv <- gets csv_text ;;
  dir <- gets directory ;;
  modify (set_directory (write_file filename csv dir)) ;;
  out <- gets OUTPUT_DIR ;;
  log_info (str "Saved data to " ++ out ++ [Char.slash] ++ filename) ;;
  log_info (str "Exiting.") ;;
  sys_exit 0.

(** The body of [handle_sigint], lines 159-186.  The body assigns
    [sigint_count] (line 163) and has no [global] statement, so the name is
    a local variable of the function; [local_sigint_count] is its binding
    when the body starts, [None] for unbound.  Reading an unbound local
    raises [UnboundLocalError].  The global [sigint_count] of line 157 is
    neither read nor written. *)
Definition handle_sigint_body (local_sigint_count : option Z) : M unit :=
  count <- match local_sigint_count with
           | None => raise UnboundLocalError
           | Some c => ret c
           end ;;
  (if 0 <? count then
     log_fatal (str "SIGINT received twice, exiting.") ;;
     sys_exit 1
   else ret tt) ;;
  (* line 163: the local becomes [count + 1]; nothing reads it again *)
  log_info (str "SIGINT received. Closing serial connection, saving data, and exiting.") ;;
  log_info (str "Press CTRL+C again to force exit.") ;;
  save_data.

(** The arguments of a call. *)
Inductive pyobj : Type :=
| PyInt (z : Z)
| PyFrame.

(** [def handle_sigint():] has no parameters: a call with arguments raises
    [TypeError] before the body starts; a call without arguments starts the
    body with a fresh frame, in which every local is unbound. *)
Definition handle_sigint (args : list pyobj) : M unit :=
  match args with
  | [] => handle_sigint_body None
  | _ :: _ => raise TypeError
  end.

(** Line 188 installs [handle_sigint] for SIGINT.  The interpreter calls
    an installed handler with two arguments, the signal number and the
    current stack frame. *)
Definition SIGINT : Z := 2.
Definition deliver_sigint : M unit := handle_sigint [PyInt SIGINT; PyFrame].

(** ** The process

    After the connection the process runs [while True: loop()] (lines
    130-131).  It is [Running] while it waits in [arduino.readline()], and
    [Exited] once an exception has left [startup]: [SystemExit(n)] ends the
    process with status [n], any other exception with a traceback and
    status 1. *)
Inductive process : Type :=
| Running (w : State)
| Exited (status : Z) (w : State).

Definition toplevel (r : outcome unit * State) : process :=
  match r with
  | (Returned _, w) => Running w
  | (Raised (SystemExit n), w) => Exited n w
  | (Raised e, w) => Exited 1 (emit (Traceback e) w)
  end.

(** What happens to the waiting process: a line arrives and [readline]
    returns it ([now] is the clock when the line is recorded), or SIGINT is
    delivered and the handler runs in the waiting thread. *)
Inductive event : Type :=
| Line (line : list byte) (now : Z)
| Sigint.

(** One iteration of [while True: loop()].  The check of lines 135-137
    comes before the wait. *)
Definition step (w : State) (ev : event) : process :=
  match ev with
  | Line line now => toplevel (loop line now w)
  | Sigint => toplevel ((check_connection ;; deliver_sigint) w)
  end.

Fixpoint run (p : process) (evs : list event) : process :=
  match p, evs with
  | Running w, ev :: rest => run (step w ev) rest
  | _, _ => p
  end.

(** [startup] from the connection on, then the loop. *)
Definition session (w : State) (connected : bool) (start : Z)
           (evs : list event) : process :=
  run (toplevel (startup_connect connected start w)) evs.

(** ** Notions the statements below use *)

Definition state_of (p : process) : State :=
  match p with
  | Running w => w
  | Exited _ w => w
  end.

Definition status_of (p : process) : option Z :=
  match p with
  | Running _ => None
  | Exited n _ => Some n
  end.

(** A Reading is a pair (elapsed_ms, value); its row in the CSV text. *)
Definition row_text (r : Z * Z) : text :=
  format_int (fst r) ++ [Char.comma] ++ format_int (snd r).

Definition rows_text (rs : list (Z * Z)) : text :=
  List.concat (map (fun r => row_text r ++ [Char.newline]) rs).

(** The lines of a CSV text that ends in a newline, and its data rows: the
    lines after the header. *)
Definition csv_lines (csv : text) : list text :=
  removelast (split Char.newline csv).

Definition data_rows (csv : text) : list text := tl (csv_lines csv).

(** A row read back: the two comma-separated fields as integers. *)
Definition parse_row (row : text) : option (Z * Z) :=
  match split Char.comma row with
  | [a; b] =>
      match py_int a, py_int b with
      | Some e, Some v => Some (e, v)
      | _, _ => None
      end
  | _ => None
  end.

(** The value a line of the transport parses to, if it does. *)
Definition line_value (line : list byte) : option Z :=
  match decode line with
  | Some raw => py_int (strip raw)
  | None => None
  end.

Definition parses (line : list byte) : bool :=
  match line_value line with
  | Some _ => true
  | None => false
  end.

Definition decodes (line : list byte) : bool :=
  match decode line with
  | Some _ => true
  | None => false
  end.

(** The Readings a session started at [start] takes from the lines it is
    fed, each with the clock at its arrival: one per line that parses, in
    arrival order; a line that does not decode ends the process. *)
Fixpoint readings (start : Z) (inputs : list (list byte * Z)) : list (Z * Z) :=
  match inputs with
  | [] => []
  | (line, now) :: rest =>
      match decode line with
      | None => []
      | Some raw =>
          match py_int (strip raw) with
          | Some v => (now - start, v) :: readings start rest
          | None => readings start rest
          end
      end
  end.

Definition line_events (inputs : list (list byte * Z)) : list event :=
  map (fun i => Line (fst i) (snd i)) inputs.

(** The state after a Reading has been recorded (lines 151-155). *)
Definition recorded (elapsed value : Z) (w : State) : State :=
  let w' := set_csv_text (csv_text w ++ format_int elapsed ++ [Char.comma]
                                     ++ format_int value ++ [Char.newline])
                         (set_ms_since_start elapsed w) in
  if VERBOSE w
  then emit (Print (format_int elapsed ++ str " ms: " ++ format_int value
                    ++ str " grams")) w'
  else w'.

(** A malformed line, in the words of the specification: empty,
    whitespace-only, or not an integer once trimmed. *)
Definition malformed (raw : text) : Prop :=
  raw = [] \/ forallb isspace raw = true \/ py_int (strip raw) = None.

(** The file name with index [n]. *)
Definition session_name (n : Z) : text :=
  str "LoadCellData_" ++ format_int n ++ str ".csv".

(** A plain base-ten digit string: one or more of the characters 0..9. *)
Definition plain_digits (s : text) : bool :=
  negb (text_eqb s []) && forallb (fun c => (48 <=? c) && (c <=? 57)) s.

(** A name of the form [LoadCellData_<index>.csv], the index a plain digit
    string. *)
Definition session_file_name (name : text) : bool :=
  let prefix := str "LoadCellData_" in
  let suffix := str ".csv" in
  let n := List.length name in
  text_eqb (firstn (List.length prefix) name) prefix
  && text_eqb (skipn (n - List.length suffix) name) suffix
  && plain_digits (firstn (n - List.length prefix - List.length suffix)
                          (skipn (List.length prefix) name)).

(** The state with only the entries of the output directory that carry a
    session file name. *)
Definition only_session_files (w : State) : State :=
  set_directory (filter (fun e => session_file_name (fst e)) (directory w)) w.

(** A session that is connected: the state [startup] leaves. *)
Definition connected_state (dir : list (text * text)) (start : Z) : State :=
  state_of (toplevel (startup_connect true start (initial_state dir))).

(** A character that can be no part of an integer: no digit, no sign, no
    underscore. *)
Definition foreign (c : Z) : Prop :=
  decimal c = None /\ c <> Char.minus /\ c <> Char.plus
  /\ c <> Char.underscore.

(** The state once [arduino.close()] has run. *)
Definition closed_port (w : State) : State :=
  set_arduino (Some {| is_open := false |}) w.

(** Directories and inputs of the examples. *)
Definition two_files : list (text * text) :=
  [(str "LoadCellData_3.csv", csv_header); (str "LoadCellData_7.csv", csv_header)].

Definition mixed_files : list (text * text) :=
  [(str "LoadCellData_3.csv", csv_header); (str "Other_9.csv", [])].

Definition unnumbered_files : list (text * text) :=
  [(str "LoadCellData_3.csv", csv_header); (str "notes.csv", [])].

Definition four_lines : list (list byte * Z) :=
  [(bytes "12" ++ [x0a], 1005); ([x0a], 1006);
   (bytes "abc" ++ [x0a], 1007); (bytes "45" ++ [x0a], 1010)].

(** ** [startup], the arguments (lines 26-119)

    [startup] reads [sys.argv] into the globals [VERBOSE], [OUTPUT_DIR],
    [BAUD] and [PORT] before it connects.  This part has its own state, the
    four globals and the console, because [BAUD] holds a [str] between
    lines 75 and 78, and for good when [int] fails. *)

Inductive baud_value : Type :=
| BaudInt (z : Z)
| BaudStr (s : text).

Record Settings := mkSettings {
  arg_VERBOSE : bool;
  arg_OUTPUT_DIR : text;
  arg_BAUD : baud_value;
  arg_PORT : text;
  arg_console : list output
}.

(** Lines 17-20. *)
Definition default_settings : Settings :=
  {| arg_VERBOSE := false;
     arg_OUTPUT_DIR := str "./OutputData";
     arg_BAUD := BaudInt 9600;
     arg_PORT := str "COM4";
     arg_console := [] |}.

(** What [open(path)] does, as the file system decides it: it opens the
    file or raises an [OSError]. *)
Inductive open_error : Type :=
| FileNotFoundError
| IsADirectoryError
| NotADirectoryError
| PermissionError.

Inductive open_result : Type :=
| Opened
| OpenRaises (e : open_error).

(** How this part of [startup] can end before its last line:
    [sys.exit(n)], or an exception that nothing catches. *)
Inductive stop : Type :=
| StopExit (status : Z)
| StopIndexError
| StopValueError
| StopOpenError (e : open_error).

Inductive progress (A : Type) : Type :=
| Go (a : A)
| Stop (r : stop).
Arguments Go {A} a.
Arguments Stop {A} r.

Definition Startup (A : Type) : Type := Settings -> progress A * Settings.

Definition sret {A} (a : A) : Startup A := fun c => (Go a, c).

Definition sbind {A B} (m : Startup A) (k : A -> Startup B) : Startup B :=
  fun c =>
    match m c with
    | (Go a, c') => k a c'
    | (Stop r, c') => (Stop r, c')
    end.

Definition sstop {A} (r : stop) : Startup A := fun c => (Stop r, c).

Definition semit (o : output) : Startup unit :=
  fun c => (Go tt, mkSettings (arg_VERBOSE c) (arg_OUTPUT_DIR c) (arg_BAUD c)
                              (arg_PORT c) (arg_console c ++ [o])).

Definition set_arg_VERBOSE (b : bool) : Startup unit :=
  fun c => (Go tt, mkSettings b (arg_OUTPUT_DIR c) (arg_BAUD c) (arg_PORT c)
                              (arg_console c)).

Definition set_arg_OUTPUT_DIR (d : text) : Startup unit :=
  fun c => (Go tt, mkSettings (arg_VERBOSE c) d (arg_BAUD c) (arg_PORT c)
                              (arg_console c)).

Definition set_arg_BAUD (b : baud_value) : Startup unit :=
  fun c => (Go tt, mkSettings (arg_VERBOSE c) (arg_OUTPUT_DIR c) b (arg_PORT c)
                              (arg_console c)).

Definition set_arg_PORT (p : text) : Startup unit :=
  fun c => (Go tt, mkSettings (arg_VERBOSE c) (arg_OUTPUT_DIR c) (arg_BAUD c) p
                              (arg_console c)).

Declare Scope startup_scope.
Delimit Scope startup_scope with startup.
Notation "x <- m ;; k" := (sbind m (fun x => k))
  (at level 61, m at next level, right associativity) : startup_scope.
Notation "m ;; k" := (sbind m (fun _ => k))
  (at level 61, right associativity) : startup_scope.

(** [flag in sys.argv] *)
Definition arg_in (flag : text) (argv : list text) : bool :=
  existsb (text_eqb flag) argv.

(** [sys.argv.index(flag)]: the first position of [flag]; [None] stands
    for the [ValueError] of a missing element. *)
Fixpoint arg_index (flag : text) (argv : list text) : option nat :=
  match argv with
  | [] => None
  | a :: rest =>
      if text_eqb a flag then Some 0%nat
      else option_map S (arg_index flag rest)
  end.

(** The pattern of lines 55-60, 70-75, 85-90 and 95-100: the position of
    the long flag if it is there, else of the short one; the guard that
    compares the position with [len(sys.argv) + 1]; then the argument after
    the flag, [IndexError] if there is none. *)
Definition flag_value (long short missing : text) (argv : list text)
  : Startup text :=
  (match arg_index (if arg_in long argv then long else short) argv with
   | None => sstop StopValueError
   | Some INDEX =>
       (if Nat.eqb INDEX (List.length argv + 1)
        then semit (LogFatal missing) ;; sstop (StopExit 1)
        else sret tt) ;;
       match nth_error argv (INDEX + 1) with
       | None => sstop StopIndexError
       | Some value => sret value
       end
   end)%startup.

(** [s.lower()], exact on ASCII and on the two other code points whose
    lower case has an ASCII character (the Kelvin sign and the dotted
    capital I); any other code point, whose lower case has no ASCII
    character, stands for its lower case. *)
Definition lower_char (c : Z) : text :=
  if (65 <=? c) && (c <=? 90) then [c + 32]
  else if c =? 8490 then [107]
  else if c =? 304 then [105; 775]
  else [c].

Definition lower (s : text) : text := flat_map lower_char s.

Definition banner_1 : text :=
  str "[bold white]LoadCellSavior by Ethan Hanlon[/bold white]".

Definition banner_2 : text :=
  str "[bold yellow](c) 2023 Fog City Rocketry[/bold yellow] at [bold purple]San Francisco State University[/bold purple]".

(** The text of lines 33-45: a newline, then each line with its newline. *)
Definition help_text : text :=
  Char.newline ::
  List.concat (map (fun l => str l ++ [Char.newline])
    ["python3 lcs.py \[--help/-h] \[--output/-o <output directory>] \[--baud/-b <baud>] \[--port/-p <comm port>] \[--verbose/-v] \[--os/-o <windows/mac/linux>]";
     "              ";
     "Logs incoming serial data from the load cell to a CSV file along with time info.";
     "Time is stored in milliseconds and is counted from the moment this program establishes a connection to the load cell.";
     "              ";
     "[bold green]--help / -h[/bold green]: Displays this help message and exits.";
     "[bold green]--output / -o <output dir>[/bold green]: Specifies a folder to output the data from. Defaults to ./OutputData.";
     "[bold green]--baud / -b <baud rate>[/bold green]: Sets a baud rate for the connection. Defaults to 9600.";
     "[bold green]--port / -p <port>[/bold green]: Comms port to use. Defaults to COM4 in Windows mode and /dev/ttyUSB0 in Linux mode.";
     "[bold green]--verbose / -v[/bold green]: Enables verbose logging.";
     "[bold green]--os <windows/mac/linux>[/bold green]: Sets the operating system. Defaults to Windows."]%string).

(** Lines 32-46. *)
Definition startup_help (argv : list text) : Startup unit :=
  (if arg_in (str "-h") argv || arg_in (str "--help") argv
   then semit (Print help_text) ;; sstop (StopExit 0)
   else sret tt)%startup.

(** Lines 49-51. *)
Definition startup_verbose (argv : list text) : Startup unit :=
  (if arg_in (str "--verbose") argv || arg_in (str "-v") argv
   then set_arg_VERBOSE true ;;
        semit (LogInfo (str "Verbose logging enabled."))
   else sret tt)%startup.

(** Lines 54-66.  [fs_open path] is what [open(path)] does. *)
Definition startup_output (fs_open : text -> open_result) (argv : list text)
  : Startup unit :=
  (if arg_in (str "--output") argv || arg_in (str "-o") argv then
     value <- flag_value (str "--output") (str "-o")
                (str "Input Error: Output parameter specified, but no output directory specified!")
                argv ;;
     set_arg_OUTPUT_DIR value ;;
     match fs_open value with
     | Opened => sret tt
     | OpenRaises FileNotFoundError =>
         semit (LogFatal (str "Input Error: Output parameter points to directory that does not exist!")) ;;
         sstop (StopExit 1)
     | OpenRaises e => sstop (StopOpenError e)
     end ;;
     fun c =>
       if arg_VERBOSE c
       then semit (LogInfo (str "Output directory set to " ++ arg_OUTPUT_DIR c)) c
       else sret tt c
   else sret tt)%startup.

(** [f"{BAUD}"] *)
Definition format_baud (b : baud_value) : text :=
  match b with
  | BaudInt z => format_int z
  | BaudStr s => s
  end.

(** Lines 69-82.  When [int] fails the error is logged and nothing else
    happens: [BAUD] keeps the text. *)
Definition startup_baud (argv : list text) : Startup unit :=
  (if arg_in (str "--baud") argv || arg_in (str "-b") argv then
     value <- flag_value (str "--baud") (str "-b")
                (str "Input Error: Baud parameter specified, but no output directory specified!")
                argv ;;
     set_arg_BAUD (BaudStr value) ;;
     match py_int value with
     | Some z => set_arg_BAUD (BaudInt z)
     | None =>
         semit (LogFatal (str "Input Error: Baud rate is invalid. Must be an integer."))
     end ;;
     fun c =>
       if arg_VERBOSE c
       then semit (LogInfo (str "Baud set to " ++ format_baud (arg_BAUD c))) c
       else sret tt c
   else sret tt)%startup.

(** Lines 84-91. *)
Definition startup_port (argv : list text) : Startup unit :=
  (if arg_in (str "--port") argv || arg_in (str "-p") argv then
     value <- flag_value (str "--port") (str "-p")
                (str "Input Error: Port parameter specified, but no port is specified")
                argv ;;
     set_arg_PORT value ;;
     fun c =>
       if arg_VERBOSE c
       then semit (LogInfo (str "Port set to " ++ arg_PORT c)) c
       else sret tt c
   else sret tt)%startup.

(** The [match] of lines 112-118. *)
Definition os_port (os : text) : option text :=
  if text_eqb os (str "windows") then Some (str "COM4")
  else if text_eqb os (str "mac") then Some (str "/dev/ttyUSB0")
  else if text_eqb os (str "linux") then Some (str "/dev/ttyUSB0")
  else None.

(** Lines 94-118. *)
Definition startup_os (argv : list text) : Startup unit :=
  (if arg_in (str "--os") argv then
     OS <- flag_value (str "--os") (str "-o")
             (str "Input Error: OS parameter specified, but no OS is specified")
             argv ;;
     (if existsb (text_eqb (lower OS)) [str "windows"; str "mac"; str "linux"]
      then sret tt
      else
        semit (LogFatal (str "Input Error: OS parameter is invalid. Must be one of windows, mac, or linux.")) ;;
        sstop (StopExit 1)) ;;
     (fun c =>
        if arg_VERBOSE c
        then semit (LogInfo (str "OS set to " ++ OS)) c
        else sret tt c) ;;
     if arg_in (str "--port") argv || arg_in (str "-p") argv
     then semit (LogInfo (str "Port specified, ignoring OS parameter."))
     else
       match os_port (lower OS) with
       | Some port => set_arg_PORT port
       | None => sret tt
       end
   else sret tt)%startup.

(** Lines 29-118: [startup] up to the connection. *)
Definition startup_arguments (fs_open : text -> open_result)
           (argv : list text) : Startup unit :=
  (semit (Print banner_1) ;;
   semit (Print banner_2) ;;
   startup_help argv ;;
   startup_verbose argv ;;
   startup_output fs_open argv ;;
   startup_baud argv ;;
   startup_port argv ;;
   startup_os argv)%startup.

(** The argument after the first occurrence of a flag. *)
Definition value_after (flag : text) (argv : list text) : option text :=
  match arg_index flag argv with
  | Some i => nth_error argv (i + 1)
  | None => None
  end.

(** The flag of a pair that [startup] looks up. *)
Definition chosen_flag (long short : text) (argv : list text) : text :=
  if arg_in long argv then long else short.

(** A file system in which [path] is a plain file and everything else is
    missing, and one in which it is a directory. *)
Definition only_file (path : text) (p : text) : open_result :=
  if text_eqb p path then Opened else OpenRaises FileNotFoundError.

Definition only_directory (path : text) (p : text) : open_result :=
  if text_eqb p path then OpenRaises IsADirectoryError
  else OpenRaises FileNotFoundError.

(** Command lines of the examples. *)
Definition argv_os_baud : list text :=
  [str "lcs.py"; str "-v"; str "--os"; str "Linux"; str "--baud"; str "115200"].

Definition argv_output : list text :=
  [str "lcs.py"; str "--output"; str "./OutputData"].

Definition argv_bad_baud : list text := [str "lcs.py"; str "-b"; str "fast"].

Definition argv_bad_os : list text := [str "lcs.py"; str "--os"; str "beos"].

(** ** More notions for the statements *)

(** A record of the program's logger [log], as against a [print] or a
    traceback of the interpreter. *)
Definition is_log_record (o : output) : bool :=
  match o with
  | LogInfo _ | LogFatal _ => true
  | Print _ | Traceback _ => false
  end.

(** The interpreter's default limit on the number of digits of an integer
    that [int] reads from text or an f-string writes: beyond it both raise
    [ValueError]. *)
Definition max_str_digits : Z := 4300.

(** A state with verbose mode on, as [--verbose] leaves it. *)
Definition set_VERBOSE (b : bool) (w : State) : State :=
  mkState (OUTPUT_DIR w) (BAUD w) (PORT w) b (arduino w) (csv_text w)
          (ms_at_start w) (ms_since_start w) (sigint_count w) (directory w)
          (console w).

(** The echo of a Reading in verbose mode (line 155). *)
Definition echo (r : Z * Z) : output :=
  Print (format_int (fst r) ++ str " ms: " ++ format_int (snd r)
         ++ str " grams").

(** ASCII text as the bytes a device sends. *)
Definition ascii_bytes (t : text) : list byte :=
  map (fun c => match Byte.of_N (Z.to_N c) with
                | Some b => b
                | None => x00
                end) t.

(** ** Facts about the library functions *)

Lemma text_eqb_eq (a b : text) : text_eqb a b = true <-> a = b.
Proof.
  unfold text_eqb. destruct (list_eq_dec Z.eq_dec a b); split; congruence.
Qed.

Lemma text_eqb_refl (a : text) : text_eqb a a = true.
Proof. now apply text_eqb_eq. Qed.

Lemma text_eqb_neq (a b : text) : text_eqb a b = false <-> a <> b.
Proof.
  unfold text_eqb. destruct (list_eq_dec Z.eq_dec a b); split; congruence.
Qed.

Lemma py_int_nil : py_int [] = None.
Proof. reflexivity. Qed.

(** ** The equations of [loop] *)

Lemma record_line_eq (raw : text) (now : Z) (w : State) :
  record_line raw now w =
  (Returned tt,
   match py_int (strip raw) with
   | Some v => recorded (now - ms_at_start w) v w
   | None => w
   end).
Proof.
  unfold record_line.
  destruct (text_eqb (strip raw) []) eqn:E.
  - apply text_eqb_eq in E. rewrite E. reflexivity.
  - destruct (py_int (strip raw)) as [v|]; [|reflexivity].
    unfold bind, gets, modify, print, ret, recorded; simpl.
    destruct (VERBOSE w); reflexivity.
Qed.

Lemma loop_closed (line : list byte) (now : Z) (w : State) :
  connection_closed (arduino w) = true ->
  loop line now w =
  (Raised (SystemExit 1),
   emit (LogFatal (str "Serial connection closed unexpectedly.")) w).
Proof.
  intros H. unfold loop, check_connection, bind, gets. rewrite H. reflexivity.
Qed.

Lemma loop_open (line : list byte) (now : Z) (w : State) :
  connection_closed (arduino w) = false ->
  loop line now w = read_line line now w.
Proof.
  intros H. unfold loop, check_connection, bind, gets. rewrite H. reflexivity.
Qed.

Lemma recorded_csv_text (e v : Z) (w : State) :
  csv_text (recorded e v w) = csv_text w ++ row_text (e, v) ++ [Char.newline].
Proof.
  unfold recorded, row_text. destruct (VERBOSE w); simpl;
    now rewrite <- !app_assoc.
Qed.

Lemma recorded_keeps (e v : Z) (w : State) :
  arduino (recorded e v w) = arduino w
  /\ ms_at_start (recorded e v w) = ms_at_start w
  /\ directory (recorded e v w) = directory w
  /\ ms_since_start (recorded e v w) = e.
Proof. unfold recorded. destruct (VERBOSE w); simpl; auto. Qed.

(** ** The handler never gets past its first line *)

Lemma deliver_sigint_type_error (w : State) :
  deliver_sigint w = (Raised TypeError, w).
Proof. reflexivity. Qed.

Lemma handle_sigint_no_arguments (w : State) :
  handle_sigint [] w = (Raised UnboundLocalError, w).
Proof. reflexivity. Qed.

Lemma handle_sigint_raises (args : list pyobj) (w : State) :
  handle_sigint args w = (Raised TypeError, w)
  \/ handle_sigint args w = (Raised UnboundLocalError, w).
Proof. destruct args; [right|left]; reflexivity. Qed.

Lemma step_sigint (w : State) :
  step w Sigint =
  Exited 1 (emit (if connection_closed (arduino w)
                  then LogFatal (str "Serial connection closed unexpectedly.")
                  else Traceback TypeError) w).
Proof.
  unfold step, check_connection, bind, gets.
  destruct (connection_closed (arduino w)); reflexivity.
Qed.

(** ** Lines that are dropped *)

Lemma lstrip_all (ws : Z -> bool) (s : text) :
  forallb ws s = true -> lstrip_with ws s = [].
Proof.
  induction s as [|c r IH]; simpl; [reflexivity|].
  intros H. apply andb_prop in H as [Hc Hr]. rewrite Hc. auto.
Qed.

Lemma strip_whitespace_only (s : text) :
  forallb isspace s = true -> strip s = [].
Proof.
  intros H. unfold strip, strip_with. now rewrite (lstrip_all _ _ H).
Qed.

Lemma malformed_not_int (raw : text) :
  malformed raw -> py_int (strip raw) = None.
Proof.
  intros [H | [H | H]].
  - subst raw. reflexivity.
  - now rewrite (strip_whitespace_only _ H).
  - exact H.
Qed.

Lemma lstrip_keeps (ws : Z -> bool) (c : Z) (s : text) :
  ws c = false -> In c s -> In c (lstrip_with ws s).
Proof.
  intros Hc. induction s as [|x r IH]; simpl; [tauto|].
  intros [-> | H].
  - rewrite Hc. now left.
  - destruct (ws x); [auto | now right].
Qed.

Lemma strip_with_keeps (ws : Z -> bool) (c : Z) (s : text) :
  ws c = false -> In c s -> In c (strip_with ws s).
Proof.
  intros Hc H. unfold strip_with.
  apply in_rev. rewrite rev_involutive.
  apply lstrip_keeps; [assumption|].
  apply -> in_rev. now apply lstrip_keeps.
Qed.

Lemma int_digits_foreign (c : Z) :
  decimal c = None -> c <> Char.underscore ->
  forall (n : nat) (s : text) (acc : Z),
    (List.length s <= n)%nat -> In c s -> int_digits acc s = None.
Proof.
  intros Hc Hu. induction n as [|n IH]; intros s acc Hn Hin.
  - destruct s; [destruct Hin | simpl in Hn; lia].
  - destruct s as [|x r]; [destruct Hin|].
    simpl in Hn. simpl.
    destruct (x =? Char.underscore) eqn:Hx.
    + destruct r as [|d r']; [reflexivity|].
      destruct Hin as [-> | [-> | Hin]].
      * apply Z.eqb_eq in Hx. congruence.
      * now rewrite Hc.
      * destruct (decimal d); [|reflexivity].
        apply IH; [simpl in Hn; lia | assumption].
    + destruct Hin as [-> | Hin]; [now rewrite Hc|].
      destruct (decimal x); [|reflexivity].
      apply IH; [lia | assumption].
Qed.

Lemma int_unsigned_foreign (c : Z) (s : text) :
  decimal c = None -> c <> Char.underscore -> In c s ->
  int_unsigned s = None.
Proof.
  intros Hc Hu Hin. destruct s as [|d r]; [reflexivity|]. simpl.
  destruct Hin as [-> | Hin]; [now rewrite Hc|].
  destruct (decimal d); [|reflexivity].
  now apply (int_digits_foreign c Hc Hu (List.length r)).
Qed.

(** Text with a character that is neither whitespace nor part of an
    integer is not an integer. *)
Lemma py_int_foreign (c : Z) (s : text) :
  foreign c -> isspace c = false -> In c s -> py_int s = None.
Proof.
  intros (Hd & Hm & Hp & Hu) Hs Hin. unfold py_int.
  assert (Hi : int_isspace c = false) by (unfold int_isspace; now rewrite Hs).
  pose proof (strip_with_keeps int_isspace c s Hi Hin) as Hk.
  destruct (strip_with int_isspace s) as [|x r]; [reflexivity|].
  destruct (x =? Char.minus) eqn:E1.
  - apply Z.eqb_eq in E1. destruct Hk as [-> | Hk]; [congruence|].
    now rewrite (int_unsigned_foreign c r Hd Hu Hk).
  - destruct (x =? Char.plus) eqn:E2.
    + apply Z.eqb_eq in E2. destruct Hk as [-> | Hk]; [congruence|].
      now apply int_unsigned_foreign with c.
    + now apply int_unsigned_foreign with c.
Qed.

Lemma non_numeric_malformed (c : Z) (raw : text) :
  foreign c -> isspace c = false -> In c raw -> malformed raw.
Proof.
  intros Hf Hs Hin. right. right.
  apply py_int_foreign with c; [assumption | assumption |].
  now apply strip_with_keeps.
Qed.

(** ** Running the loop over a sequence of lines *)

Lemma run_exited (n : Z) (w : State) (evs : list event) :
  run (Exited n w) evs = Exited n w.
Proof. destruct evs; reflexivity. Qed.

Lemma step_line_open (w : State) (line : list byte) (now : Z) :
  connection_closed (arduino w) = false ->
  step w (Line line now) =
  match decode line with
  | None => Exited 1 (emit (Traceback UnicodeDecodeError) w)
  | Some raw =>
      Running match py_int (strip raw) with
              | Some v => recorded (now - ms_at_start w) v w
              | None => w
              end
  end.
Proof.
  intros H. unfold step. rewrite (loop_open _ _ _ H). unfold read_line.
  destruct (decode line) as [raw|]; [|reflexivity].
  now rewrite record_line_eq.
Qed.

Lemma run_lines (inputs : list (list byte * Z)) :
  forall w : State,
    connection_closed (arduino w) = false ->
    let p := run (Running w) (line_events inputs) in
    csv_text (state_of p)
    = csv_text w ++ rows_text (readings (ms_at_start w) inputs)
    /\ ms_at_start (state_of p) = ms_at_start w
    /\ arduino (state_of p) = arduino w
    /\ directory (state_of p) = directory w
    /\ (forallb decodes (map fst inputs) = true -> exists w', p = Running w').
Proof.
  induction inputs as [|[line now] rest IH]; intros w Hopen;
    cbv zeta; unfold line_events; cbn [map fst snd run readings forallb].
  - cbn [state_of rows_text List.concat map]. rewrite app_nil_r.
    repeat split. eauto.
  - rewrite (step_line_open _ _ _ Hopen). unfold decodes at 1.
    destruct (decode line) as [raw|].
    + destruct (py_int (strip raw)) as [v|].
      * destruct (recorded_keeps (now - ms_at_start w) v w)
          as (Ha & Hs & Hd & _).
        destruct (IH (recorded (now - ms_at_start w) v w))
          as (E1 & E2 & E3 & E4 & E5).
        { now rewrite Ha. }
        unfold line_events in *.
        rewrite E1, E2, E3, E4, Hs, Ha, Hd, recorded_csv_text.
        repeat split; [|exact E5].
        unfold rows_text. cbn [map List.concat].
        now rewrite <- !app_assoc.
      * destruct (IH w Hopen) as (E1 & E2 & E3 & E4 & E5).
        repeat split; assumption.
    + rewrite run_exited. cbn. rewrite app_nil_r.
      repeat split. discriminate.
Qed.

Lemma startup_connect_ok (start : Z) (w : State) :
  exists w1,
    toplevel (startup_connect true start w) = Running w1
    /\ connection_closed (arduino w1) = false
    /\ ms_at_start w1 = start
    /\ csv_text w1 = csv_text w
    /\ directory w1 = directory w.
Proof. eexists. split; [reflexivity|]. simpl. auto. Qed.

(** ** The elapsed times of the Readings *)

Lemma readings_elapsed (start : Z) (inputs : list (list byte * Z)) (r : Z * Z) :
  In r (readings start inputs) ->
  exists now, In now (map snd inputs) /\ fst r = now - start.
Proof.
  induction inputs as [|[line now] rest IH]; simpl; [tauto|].
  destruct (decode line) as [raw|]; [|simpl; tauto].
  destruct (py_int (strip raw)) as [v|].
  - intros [<- | H].
    + exists now. simpl. auto.
    + destruct (IH H) as (t & Ht & E). exists t. auto.
  - intros H. destruct (IH H) as (t & Ht & E). exists t. auto.
Qed.

Lemma readings_sorted (start : Z) (inputs : list (list byte * Z)) :
  StronglySorted Z.le (map snd inputs) ->
  StronglySorted Z.le (map fst (readings start inputs)).
Proof.
  induction inputs as [|[line now] rest IH]; simpl; intros SS.
  - constructor.
  - inversion SS as [|? ? SS' Hall]; subst.
    destruct (decode line) as [raw|]; [|constructor].
    destruct (py_int (strip raw)) as [v|]; [|auto].
    simpl. constructor; [auto|].
    apply Forall_forall. intros e He.
    apply in_map_iff in He as (r & <- & Hr).
    destruct (readings_elapsed _ _ _ Hr) as (t & Ht & ->).
    rewrite Forall_forall in Hall. specialize (Hall t Ht). lia.
Qed.

Lemma readings_values (start : Z) (inputs : list (list byte * Z)) :
  forallb decodes (map fst inputs) = true ->
  map snd (readings start inputs)
  = flat_map (fun line => match line_value line with
                          | Some v => [v]
                          | None => []
                          end) (map fst inputs).
Proof.
  induction inputs as [|[line now] rest IH]; simpl; [reflexivity|].
  unfold decodes at 1, line_value at 1.
  destruct (decode line) as [raw|]; [|discriminate].
  simpl. intros H. destruct (py_int (strip raw)); simpl; now rewrite IH.
Qed.

Lemma readings_count (start : Z) (inputs : list (list byte * Z)) :
  forallb decodes (map fst inputs) = true ->
  List.length (readings start inputs)
  = List.length (filter parses (map fst inputs)).
Proof.
  induction inputs as [|[line now] rest IH]; simpl; [reflexivity|].
  unfold decodes at 1, parses at 1, line_value at 1.
  destruct (decode line) as [raw|]; [|discriminate].
  simpl. intros H. destruct (py_int (strip raw)); simpl; now rewrite IH.
Qed.

(** ** The rows of the CSV text *)

Lemma split_app_sep (sep : Z) (a rest : text) :
  ~ In sep a -> split sep (a ++ sep :: rest) = a :: split sep rest.
Proof.
  induction a as [|c a IH]; simpl; intros H.
  - now rewrite Z.eqb_refl.
  - destruct (c =? sep) eqn:E.
    + apply Z.eqb_eq in E. tauto.
    + rewrite IH by tauto. reflexivity.
Qed.

Lemma split_no_sep (sep : Z) (a : text) :
  ~ In sep a -> split sep a = [a].
Proof.
  induction a as [|c a IH]; simpl; intros H; [reflexivity|].
  destruct (c =? sep) eqn:E.
  - apply Z.eqb_eq in E. tauto.
  - rewrite IH by tauto. reflexivity.
Qed.

Lemma uint_text_digits (d : Decimal.uint) :
  Forall (fun c => 48 <= c <= 57) (uint_text d).
Proof. induction d; simpl; constructor; (lia || assumption). Qed.

Lemma format_int_chars (z : Z) :
  Forall (fun c => c = Char.minus \/ 48 <= c <= 57) (format_int z).
Proof.
  unfold format_int.
  destruct (Z.to_int z) as [d|d]; [|constructor; [now left|]];
    (eapply Forall_impl; [|apply uint_text_digits]); intros c Hc; now right.
Qed.

Lemma format_int_without (c : Z) (z : Z) :
  c <> Char.minus -> ~ (48 <= c <= 57) -> ~ In c (format_int z).
Proof.
  intros H1 H2 Hin. pose proof (format_int_chars z) as F.
  rewrite Forall_forall in F. destruct (F c Hin); tauto.
Qed.

Lemma row_text_no_newline (r : Z * Z) : ~ In Char.newline (row_text r).
Proof.
  unfold row_text. intros H.
  apply in_app_or in H as [H | H].
  - revert H. apply format_int_without; unfold Char.newline, Char.minus; lia.
  - apply in_app_or in H as [[H | []] | H]; [discriminate H|].
    revert H. apply format_int_without; unfold Char.newline, Char.minus; lia.
Qed.

Lemma split_rows_text (rs : list (Z * Z)) :
  split Char.newline (rows_text rs) = map row_text rs ++ [[]].
Proof.
  induction rs as [|r rs IH]; [reflexivity|].
  unfold rows_text in *. simpl. rewrite <- app_assoc. simpl.
  rewrite split_app_sep by apply row_text_no_newline.
  now rewrite IH.
Qed.

Lemma data_rows_csv (rs : list (Z * Z)) :
  data_rows (csv_header ++ rows_text rs) = map row_text rs.
Proof.
  unfold data_rows, csv_lines, csv_header.
  rewrite <- app_assoc. simpl ((_ :: nil) ++ _).
  rewrite split_app_sep.
  - rewrite split_rows_text.
    change (?h :: ?m ++ [[]]) with ((h :: m) ++ [[]]).
    now rewrite removelast_last.
  - vm_compute. intuition discriminate.
Qed.

(** ** [int] reads back what an f-string writes *)

Lemma decimal_ascii (c : Z) : 48 <= c <= 57 -> decimal c = Some (c - 48).
Proof.
  intros H. unfold decimal, decimal_zeros. cbn [decimal_in].
  replace (48 <=? c) with true by (symmetry; apply Z.leb_le; lia).
  replace (c <? 48 + 10) with true by (symmetry; apply Z.ltb_lt; lia).
  reflexivity.
Qed.

Lemma int_digits_step (acc c : Z) (r : text) :
  48 <= c <= 57 ->
  int_digits acc (c :: r) = int_digits (acc * 10 + (c - 48)) r.
Proof.
  intros H. cbn [int_digits].
  replace (c =? Char.underscore) with false
    by (symmetry; apply Z.eqb_neq; unfold Char.underscore; lia).
  now rewrite decimal_ascii.
Qed.

Lemma int_digits_uint_pos (d : Decimal.uint) :
  forall p : positive,
    int_digits (Z.pos p) (uint_text d) = Some (Z.pos (Pos.of_uint_acc d p)).
Proof.
  induction d; intros p; cbn [uint_text Pos.of_uint_acc];
    [reflexivity | rewrite int_digits_step by lia; rewrite <- IHd; f_equal; lia ..].
Qed.

Lemma int_digits_uint_zero (d : Decimal.uint) :
  int_digits 0 (uint_text d) = Some (Z.of_N (Pos.of_uint d)).
Proof.
  induction d; cbn [uint_text Pos.of_uint];
    [reflexivity
    | rewrite int_digits_step by lia; exact IHd
    | rewrite int_digits_step by lia; apply int_digits_uint_pos ..].
Qed.

Lemma int_unsigned_uint (d : Decimal.uint) :
  d <> Decimal.Nil ->
  int_unsigned (uint_text d) = Some (Z.of_N (Pos.of_uint d)).
Proof.
  intros Hd. destruct d as [|d|d|d|d|d|d|d|d|d|d]; [congruence | ..];
    cbn [uint_text int_unsigned Pos.of_uint]; rewrite decimal_ascii by lia;
    match goal with
    | |- int_digits ?a _ = _ =>
        let v := eval compute in a in change a with v
    end;
    [exact (int_digits_uint_zero d) | exact (int_digits_uint_pos d _) ..].
Qed.

Lemma lstrip_head (ws : Z -> bool) (s : text) :
  match s with [] => True | c :: _ => ws c = false end ->
  lstrip_with ws s = s.
Proof. destruct s as [|c r]; simpl; [reflexivity|]. now intros ->. Qed.

Lemma strip_with_none (ws : Z -> bool) (s : text) :
  Forall (fun c => ws c = false) s -> strip_with ws s = s.
Proof.
  intros H. unfold strip_with.
  rewrite (lstrip_head ws s) by (destruct H; auto).
  rewrite lstrip_head; [apply rev_involutive|].
  apply Forall_rev in H. destruct H; auto.
Qed.

Lemma format_int_no_space (z : Z) :
  Forall (fun c => int_isspace c = false) (format_int z).
Proof.
  eapply Forall_impl; [|apply format_int_chars].
  intros c [-> | H]; [reflexivity|].
  unfold int_isspace, isspace.
  repeat match goal with
         | |- context [?a <=? ?b] =>
             let E := fresh in destruct (Z.leb_spec a b) as [E|E]
         | |- context [?a =? ?b] =>
             let E := fresh in destruct (Z.eqb_spec a b) as [E|E]
         end; try lia; reflexivity.
Qed.

Lemma uint_text_head (d : Decimal.uint) :
  d <> Decimal.Nil ->
  exists c r, uint_text d = c :: r /\ 48 <= c <= 57.
Proof.
  intros Hd. destruct d; [congruence | ..]; cbn [uint_text];
    eexists; eexists; (split; [reflexivity | lia]).
Qed.

Theorem py_int_format_int (z : Z) : py_int (format_int z) = Some z.
Proof.
  unfold py_int. rewrite strip_with_none by apply format_int_no_space.
  assert (N : forall p, Pos.to_uint p <> Decimal.Nil)
    by apply DecimalPos.Unsigned.to_uint_nonnil.
  rewrite <- (DecimalZ.of_to z) at 2.
  unfold format_int. destruct z as [|p|p]; cbn [Z.to_int Z.of_int].
  - reflexivity.
  - destruct (uint_text_head _ (N p)) as (c & r & E & Hc).
    rewrite E.
    replace (c =? Char.minus) with false
      by (symmetry; apply Z.eqb_neq; unfold Char.minus; lia).
    replace (c =? Char.plus) with false
      by (symmetry; apply Z.eqb_neq; unfold Char.plus; lia).
    rewrite <- E. now apply int_unsigned_uint.
  - rewrite Z.eqb_refl. now rewrite int_unsigned_uint.
Qed.

Lemma parse_row_row_text (r : Z * Z) : parse_row (row_text r) = Some r.
Proof.
  destruct r as [e v]. unfold parse_row, row_text. cbn [fst snd app].
  rewrite split_app_sep
    by (apply format_int_without; unfold Char.comma, Char.minus; lia).
  rewrite split_no_sep
    by (apply format_int_without; unfold Char.comma, Char.minus; lia).
  now rewrite !py_int_format_int.
Qed.

(** ** The index read from a file name *)

Lemma rfind_from_none (c : Z) (s : text) :
  forall i found, ~ In c s -> rfind_from i c s found = found.
Proof.
  induction s as [|x r IH]; intros i found H; cbn [rfind_from]; [reflexivity|].
  destruct (Z.eqb_spec x c) as [->|Hx]; [simpl in H; tauto|].
  apply IH. simpl in H. tauto.
Qed.

Lemma rfind_from_last (c : Z) (a b : text) :
  forall i found,
    ~ In c b ->
    rfind_from i c (a ++ c :: b) found = i + Z.of_nat (List.length a).
Proof.
  induction a as [|x a IH]; intros i found H.
  - cbn [app rfind_from List.length]. rewrite Z.eqb_refl.
    rewrite rfind_from_none by assumption. simpl. lia.
  - cbn [app rfind_from]. rewrite IH by assumption.
    cbn [List.length]. lia.
Qed.

Lemma skipn_past (a b : text) (x : Z) :
  skipn (S (List.length a)) (a ++ x :: b) = b.
Proof. induction a as [|y a IH]; [reflexivity | exact IH]. Qed.

Lemma firstn_prefix (a b : text) : firstn (List.length a) (a ++ b) = a.
Proof. induction a as [|y a IH]; [reflexivity | simpl; now rewrite IH]. Qed.

Lemma basename_after_slash (a name : text) :
  ~ In Char.slash name -> basename (a ++ Char.slash :: name) = name.
Proof.
  intros H. unfold basename, rfind. rewrite rfind_from_last by assumption.
  replace (Z.to_nat (0 + Z.of_nat (List.length a) + 1))
    with (S (List.length a)) by lia.
  apply skipn_past.
Qed.

Lemma basename_path_join (dir name : text) :
  ~ In Char.slash name -> basename (path_join dir name) = name.
Proof.
  intros H. unfold path_join. destruct (rev dir) as [|c l] eqn:E.
  - unfold basename, rfind. now rewrite rfind_from_none.
  - destruct (Z.eqb_spec c Char.slash) as [->|Hc].
    + apply (f_equal (@rev Z)) in E. rewrite rev_involutive in E.
      subst dir. cbn [rev]. rewrite <- app_assoc.
      now apply basename_after_slash.
    + now apply basename_after_slash.
Qed.

Lemma splitext_root_extension (a ext : text) :
  ~ In Char.slash (a ++ Char.dot :: ext) ->
  ~ In Char.dot ext ->
  existsb (fun c => negb (c =? Char.dot)) a = true ->
  splitext_root (a ++ Char.dot :: ext) = a.
Proof.
  intros Hs Hd Ha. unfold splitext_root, rfind, slice.
  rewrite (rfind_from_none Char.slash) by assumption.
  rewrite rfind_from_last by assumption.
  replace (-1 <? 0 + Z.of_nat (List.length a)) with true
    by (symmetry; apply Z.ltb_lt; lia).
  replace (Z.to_nat (0 + Z.of_nat (List.length a) - (-1 + 1)))
    with (List.length a) by lia.
  replace (Z.to_nat (0 + Z.of_nat (List.length a)))
    with (List.length a) by lia.
  change (skipn (Z.to_nat (-1 + 1)) (a ++ Char.dot :: ext))
    with (a ++ Char.dot :: ext).
  rewrite firstn_prefix, Ha. reflexivity.
Qed.

Lemma fold_left_max_ge (l : list Z) :
  forall m, m <= fold_left Z.max l m.
Proof.
  induction l as [|x l IH]; intros m; simpl; [lia|].
  specialize (IH (Z.max m x)). lia.
Qed.

Lemma fold_left_max_spec (l : list Z) :
  forall m,
    In (fold_left Z.max l m) (m :: l)
    /\ Forall (fun x => x <= fold_left Z.max l m) (m :: l).
Proof.
  induction l as [|x l IH]; intros m; cbn [fold_left].
  - split; [now left | constructor; [lia | constructor]].
  - destruct (IH (Z.max m x)) as [Hin Hall].
    inversion Hall as [|? ? Hm Hl]; subst. split.
    + destruct Hin as [E | Hin]; [|right; now right].
      rewrite <- E. destruct (Z.max_spec m x) as [[_ ->] | [_ ->]];
        [right; now left | now left].
    + constructor; [lia|]. constructor; [lia | assumption].
Qed.

Lemma py_max_spec (numbers : list Z) (m : Z) :
  py_max numbers = Returned m ->
  In m numbers /\ Forall (fun x => x <= m) numbers.
Proof.
  destruct numbers as [|n rest]; [discriminate|].
  cbn [py_max]. intros [= <-]. apply fold_left_max_spec.
Qed.

Lemma file_number_raises (file : text) (e : exn) :
  file_number file = Raised e -> e = IndexError \/ e = ValueError.
Proof.
  unfold file_number.
  destruct (nth_error _ 1) as [field|]; [|intros [= <-]; now left].
  destruct (py_int field); [discriminate | intros [= <-]; now right].
Qed.

Lemma file_numbers_returned (files : list text) :
  forall ns,
    file_numbers files = Returned ns ->
    Forall2 (fun f n => file_number f = Returned n) files ns.
Proof.
  induction files as [|f rest IH]; intros ns; cbn [file_numbers].
  - intros [= <-]. constructor.
  - destruct (file_number f) as [n|e] eqn:E; [|discriminate].
    cbn [obind]. destruct (file_numbers rest) as [ns'|e]; [|discriminate].
    cbn [obind]. intros [= <-]. constructor; auto.
Qed.

Lemma file_numbers_raised (files : list text) (e : exn) :
  file_numbers files = Raised e ->
  exists f, In f files /\ file_number f = Raised e.
Proof.
  induction files as [|f rest IH]; cbn [file_numbers]; [discriminate|].
  destruct (file_number f) as [n|e'] eqn:E; cbn [obind].
  - destruct (file_numbers rest) as [ns'|e'']; cbn [obind]; [discriminate|].
    intros [= <-]. destruct IH as (g & Hg & Eg); [reflexivity|].
    exists g. split; [now right | assumption].
  - intros [= <-]. exists f. split; [now left | assumption].
Qed.

Lemma skipn_prefix (a b : text) : skipn (List.length a) (a ++ b) = b.
Proof. induction a as [|y a IH]; [reflexivity | exact IH]. Qed.

Lemma session_name_without (c : Z) (n : Z) :
  c <> Char.minus -> ~ (48 <= c <= 57) ->
  ~ In c (str "LoadCellData_") -> ~ In c (str ".csv") ->
  ~ In c (session_name n).
Proof.
  intros H1 H2 H3 H4 H. unfold session_name in H.
  apply in_app_or in H as [H | H]; [tauto|].
  apply in_app_or in H as [H | H]; [|tauto].
  revert H. now apply format_int_without.
Qed.

Lemma session_name_no_slash (n : Z) : ~ In Char.slash (session_name n).
Proof.
  apply session_name_without; unfold Char.slash, Char.minus;
    try lia; vm_compute; intuition discriminate.
Qed.

Lemma fnmatch_session_name (n : Z) : fnmatch_csv (session_name n) = true.
Proof.
  unfold fnmatch_csv.
  change (session_name n)
    with (76 :: (skipn 1 (str "LoadCellData_") ++ format_int n ++ str ".csv")).
  cbv beta iota.
  change (76 :: (skipn 1 (str "LoadCellData_") ++ format_int n ++ str ".csv"))
    with (session_name n).
  unfold session_name. rewrite app_assoc.
  rewrite length_app.
  replace (List.length (str "LoadCellData_" ++ format_int n)
           + List.length (str ".csv") - 4)%nat
    with (List.length (str "LoadCellData_" ++ format_int n))
    by (change (List.length (str ".csv")) with 4%nat; lia).
  rewrite skipn_prefix, text_eqb_refl.
  replace (4 <=? _) with true; [reflexivity|].
  symmetry. apply Z.leb_le.
  change (List.length (str ".csv")) with 4%nat. lia.
Qed.

Lemma file_number_session_name (dir : text) (n : Z) :
  file_number (path_join dir (session_name n)) = Returned n.
Proof.
  unfold file_number.
  rewrite basename_path_join by apply session_name_no_slash.
  assert (E : splitext_root (session_name n)
              = str "LoadCellData_" ++ format_int n).
  { pose proof (session_name_no_slash n) as Hs.
    unfold session_name in *. rewrite app_assoc in *.
    change (str ".csv") with (Char.dot :: str "csv") in *.
    apply splitext_root_extension; [assumption | | reflexivity].
    vm_compute. intuition discriminate. }
  rewrite E.
  change (str "LoadCellData_" ++ format_int n)
    with (str "LoadCellData" ++ Char.underscore :: format_int n).
  rewrite split_app_sep by (vm_compute; intuition discriminate).
  rewrite split_no_sep
    by (apply format_int_without; unfold Char.underscore, Char.minus; lia).
  cbn [nth_error]. now rewrite py_int_format_int.
Qed.

Lemma file_numbers_session_names (dir : text) (ns : list Z) :
  file_numbers (map (fun n => path_join dir (session_name n)) ns)
  = Returned ns.
Proof.
  induction ns as [|n ns IH]; [reflexivity|].
  cbn [map file_numbers]. rewrite file_number_session_name, IH. reflexivity.
Qed.

(** ** What [save_data] does, by the outcome of the choice of the name *)

Lemma save_data_raises (w : State) (s : Serial) (e : exn) :
  arduino w = Some s ->
  next_filename (glob_csv w) = Raised e ->
  save_data w = (Raised e, closed_port w).
Proof.
  intros Ha He. unfold save_data, close_serial, bind, gets, lift.
  rewrite Ha. cbn [modify]. 
  change (glob_csv (set_arduino _ w)) with (glob_csv w).
  now rewrite He.
Qed.

Lemma save_data_writes (w : State) (s : Serial) (filename : text) :
  arduino w = Some s ->
  next_filename (glob_csv w) = Returned filename ->
  save_data w =
  (Raised (SystemExit 0),
   emit (LogInfo (str "Exiting."))
     (emit (LogInfo (str "Saved data to " ++ OUTPUT_DIR w ++ [Char.slash]
                         ++ filename))
        (set_directory (write_file filename (csv_text w) (directory w))
           (closed_port w)))).
Proof.
  intros Ha He. unfold save_data, close_serial, bind, gets, lift.
  rewrite Ha. cbn [modify].
  change (glob_csv (set_arduino _ w)) with (glob_csv w).
  now rewrite He.
Qed.

Lemma save_data_no_csv (w : State) (s : Serial) :
  arduino w = Some s ->
  filter fnmatch_csv (map fst (directory w)) = [] ->
  save_data w = (Raised ValueError, closed_port w).
Proof.
  intros Ha Hd. apply save_data_raises with s; [assumption|].
  unfold glob_csv. rewrite Hd. reflexivity.
Qed.

(** A directory whose [*.csv] entries are the session files with the
    indices [ns], at least one: the new name carries one more than the
    highest index. *)
Lemma next_filename_session_names (w : State) (ns : list Z) :
  ns <> [] ->
  filter fnmatch_csv (map fst (directory w)) = map session_name ns ->
  exists highest,
    In highest ns /\ Forall (fun n => n <= highest) ns
    /\ next_filename (glob_csv w) = Returned (session_name (highest + 1)).
Proof.
  intros Hne Hd. unfold glob_csv, next_filename. rewrite Hd, map_map.
  rewrite file_numbers_session_names. cbn [obind].
  destruct ns as [|n rest]; [congruence|]. cbn [py_max obind].
  exists (fold_left Z.max rest n).
  destruct (fold_left_max_spec rest n) as [Hin Hall].
  repeat split; assumption.
Qed.

Lemma filter_fnmatch_session_names (ns : list Z) :
  filter fnmatch_csv (map session_name ns) = map session_name ns.
Proof.
  induction ns as [|n ns IH]; [reflexivity|].
  cbn [map filter]. now rewrite fnmatch_session_name, IH.
Qed.

(** Lines 167-186 on an open port and a directory of session files, at
    least one: the port is closed, [csv_text] is written under the next
    index and the exit status is 0. *)
Lemma save_data_session_files (w : State) (s : Serial) (ns : list Z) :
  arduino w = Some s ->
  ns <> [] ->
  map fst (directory w) = map session_name ns ->
  exists highest,
    In highest ns /\ Forall (fun n => n <= highest) ns
    /\ toplevel (save_data w)
       = Exited 0
           (emit (LogInfo (str "Exiting."))
              (emit (LogInfo (str "Saved data to " ++ OUTPUT_DIR w
                                  ++ [Char.slash] ++ session_name (highest + 1)))
                 (set_directory
                    (write_file (session_name (highest + 1)) (csv_text w)
                                (directory w))
                    (closed_port w)))).
Proof.
  intros Ha Hne Hd.
  destruct (next_filename_session_names w ns Hne) as (highest & Hin & Hall & E).
  { rewrite Hd. apply filter_fnmatch_session_names. }
  exists highest. repeat split; try assumption.
  now rewrite (save_data_writes w s _ Ha E).
Qed.

Lemma Forall2_right {A B} (R : A -> B -> Prop) (l : list A) (l' : list B) (y : B) :
  Forall2 R l l' -> In y l' -> exists x, In x l /\ R x y.
Proof.
  induction 1 as [|a b l l' Hab _ IH]; simpl; [tauto|].
  intros [<- | H].
  - exists a. auto.
  - destruct (IH H) as (x & Hx & Rx). exists x. auto.
Qed.

Lemma Forall2_left {A B} (R : A -> B -> Prop) (l : list A) (l' : list B) (x : A) :
  Forall2 R l l' -> In x l -> exists y, In y l' /\ R x y.
Proof.
  induction 1 as [|a b l l' Hab _ IH]; simpl; [tauto|].
  intros [<- | H].
  - exists b. auto.
  - destruct (IH H) as (y & Hy & Ry). exists y. auto.
Qed.

(** ** Examples *)

Example file_number_examples :
  map (fun name => file_number (path_join (str "./OutputData") (str name)))
      ["LoadCellData_3.csv"; "Other_9.csv"; "LoadCellData_3_4.csv";
       "a_ 4 .csv"; "a_-3.csv"; "a_b.csv"; "ab.csv"; "a_7.b.csv"]%string
  = [Returned 3; Returned 9; Returned 3; Returned 4; Returned (-3);
     Raised ValueError; Raised IndexError; Raised ValueError].
Proof. vm_compute. reflexivity. Qed.

Example py_int_examples :
  map (fun s => py_int (str s))
      ["12"; "1_0"; "_1"; "1_"; "1__0"; "+5"; "-5"; "- 5"; ""; "+"; " 1 ";
       "007"; "0x10"; "1.0"; "1 2"; "abc"]%string
  = [Some 12; Some 10; None; None; None; Some 5; Some (-5); None; None; None;
     Some 1; Some 7; None; None; None; None].
Proof. vm_compute. reflexivity. Qed.

Example glob_example :
  glob_csv (initial_state (two_files ++ [(str "notes.txt", []);
                                         (str ".hidden_9.csv", [])]))
  = [str "./OutputData/LoadCellData_3.csv"; str "./OutputData/LoadCellData_7.csv"].
Proof. vm_compute. reflexivity. Qed.

(** The four lines of the scenario, fed to a fresh session. *)
Example four_lines_session :
  let p := session (initial_state []) true 1000 (line_events four_lines) in
  status_of p = None
  /\ data_rows (csv_text (state_of p)) = [str "5,12"; str "10,45"]
  /\ map parse_row (data_rows (csv_text (state_of p)))
     = [Some (5, 12); Some (10, 45)].
Proof. vm_compute. repeat split. Qed.

(** One SIGINT after two Readings: status 1, a traceback, the port still
    open, the directory as it was. *)
Example sigint_after_two_readings :
  let p := session (initial_state two_files) true 1000
             (line_events four_lines ++ [Sigint]) in
  status_of p = Some 1
  /\ arduino (state_of p) = Some {| is_open := true |}
  /\ directory (state_of p) = two_files
  /\ last (console (state_of p)) (Print []) = Traceback TypeError.
Proof. vm_compute. repeat split. Qed.

(** What lines 167-186 do when they run with two session files in place. *)
Example save_data_two_files :
  let w := connected_state two_files 1000 in
  toplevel (save_data w)
  = Exited 0
      (emit (LogInfo (str "Exiting."))
         (emit (LogInfo (str "Saved data to ./OutputData/LoadCellData_8.csv"))
            (set_directory (two_files ++ [(str "LoadCellData_8.csv", csv_header)])
               (closed_port w)))).
Proof. vm_compute. reflexivity. Qed.

(** ** The claims *)

(** C1. The claim: one SIGINT closes the transport, writes one CSV file
    with the header and every Reading, and the process ends with status 0.
    The code: whatever the session, the delivery of SIGINT ends the process
    with status 1; the port and the output directory are as they were.  The
    interpreter calls the handler with the signal number and the frame, the
    handler takes no parameters, so the call raises [TypeError]; called
    without arguments, the handler raises [UnboundLocalError] at line 159. *)
Theorem sigint_once_exits_1 (w : State) :
  exists w',
    step w Sigint = Exited 1 w'
    /\ arduino w' = arduino w
    /\ directory w' = directory w
    /\ deliver_sigint w = (Raised TypeError, w)
    /\ handle_sigint [] w = (Raised UnboundLocalError, w).
Proof.
  eexists. split; [apply step_sigint|].
  destruct (connection_closed (arduino w)); repeat split.
Qed.

(** C2. The claim: a second SIGINT during the shutdown is reported as a
    forced exit and ends the process with a non-zero status, nothing
    written.  The code: the first SIGINT has already ended the process with
    status 1; what reaches the console is a traceback (or the report of a
    closed connection), never the forced-exit report, and no call of the
    handler gets to line 160. *)
Theorem second_sigint_never_reported (w : State) :
  exists w' o,
    run (Running w) [Sigint; Sigint] = Exited 1 w'
    /\ console w' = console w ++ [o]
    /\ (o = Traceback TypeError
        \/ o = LogFatal (str "Serial connection closed unexpectedly."))
    /\ directory w' = directory w
    /\ forall args,
         handle_sigint args w = (Raised TypeError, w)
         \/ handle_sigint args w = (Raised UnboundLocalError, w).
Proof.
  change (run (Running w) [Sigint; Sigint])
    with (run (step w Sigint) [Sigint]).
  rewrite step_sigint, run_exited.
  eexists. eexists. split; [reflexivity|].
  split; [reflexivity|].
  split; [destruct (connection_closed (arduino w)); auto|].
  split; [reflexivity | intros args; apply handle_sigint_raises].
Qed.

(** C3. The claim: the new index is one more than the highest index in the
    output directory, and 0 for an empty directory.  The code: with
    LoadCellData_3.csv and LoadCellData_7.csv in place the new name is
    LoadCellData_8.csv; for an empty directory [max] raises [ValueError],
    nothing is written and the process ends with status 1. *)
Theorem empty_directory_has_no_next_index :
  next_filename (glob_csv (connected_state two_files 0))
  = Returned (str "LoadCellData_8.csv")
  /\ next_filename (glob_csv (connected_state [] 0)) = Raised ValueError
  /\ forall start,
       toplevel (save_data (connected_state [] start))
       = Exited 1 (emit (Traceback ValueError)
                        (closed_port (connected_state [] start))).
Proof.
  split; [vm_compute; reflexivity|].
  split; [reflexivity|].
  intros start.
  rewrite (save_data_no_csv (connected_state [] start) {| is_open := true |});
    reflexivity.
Qed.

(** C4. For lines that all decode, fed to a session whose CSV text is the
    header, the process keeps running, the data rows of the CSV text are
    the rows of the Readings of the lines that parse as integers, in
    arrival order, and there are as many rows as such lines. *)
Theorem rows_are_parsed_lines
        (w : State) (start : Z) (inputs : list (list byte * Z)) :
  csv_text w = csv_header ->
  forallb decodes (map fst inputs) = true ->
  exists w',
    session w true start (line_events inputs) = Running w'
    /\ data_rows (csv_text w') = map row_text (readings start inputs)
    /\ map parse_row (data_rows (csv_text w'))
       = map Some (readings start inputs)
    /\ List.length (data_rows (csv_text w'))
       = List.length (filter parses (map fst inputs))
    /\ map snd (readings start inputs)
       = flat_map (fun line => match line_value line with
                               | Some v => [v]
                               | None => []
                               end) (map fst inputs).
Proof.
  intros Hcsv Hdec. unfold session.
  destruct (startup_connect_ok start w) as (w1 & E & Hopen & Hs & Hc & _).
  rewrite E.
  destruct (run_lines inputs w1 Hopen) as (Ecsv & _ & _ & _ & Hrun).
  destruct (Hrun Hdec) as (w' & Ew'). rewrite Ew' in *. cbn [state_of] in Ecsv.
  exists w'. split; [reflexivity|].
  rewrite Ecsv, Hc, Hcsv, Hs, data_rows_csv.
  split; [reflexivity|].
  split; [|split].
  - rewrite map_map. apply map_ext. apply parse_row_row_text.
  - rewrite length_map. now apply readings_count.
  - now apply readings_values.
Qed.

Lemma rows_are_parsed_lines_witness :
  csv_text (initial_state []) = csv_header
  /\ forallb decodes (map fst four_lines) = true
  /\ exists w',
       session (initial_state []) true 1000 (line_events four_lines)
       = Running w'
       /\ data_rows (csv_text w') = map row_text (readings 1000 four_lines)
       /\ map parse_row (data_rows (csv_text w'))
          = map Some (readings 1000 four_lines)
       /\ List.length (data_rows (csv_text w'))
          = List.length (filter parses (map fst four_lines))
       /\ map snd (readings 1000 four_lines)
          = flat_map (fun line => match line_value line with
                                  | Some v => [v]
                                  | None => []
                                  end) (map fst four_lines).
Proof.
  split; [reflexivity|]. split; [reflexivity|].
  apply (rows_are_parsed_lines (initial_state []) 1000 four_lines);
    reflexivity.
Defined.

(** C5. A malformed line (empty, whitespace-only, or no integer once
    trimmed) leaves the whole state, the CSV text with it, as it was, and
    raises nothing: the loop goes on. *)
Theorem malformed_line_is_dropped
        (w : State) (line : list byte) (raw : text) (now : Z) :
  connection_closed (arduino w) = false ->
  decode line = Some raw ->
  malformed raw ->
  loop line now w = (Returned tt, w) /\ step w (Line line now) = Running w.
Proof.
  intros Hopen Hdec Hm. apply malformed_not_int in Hm.
  rewrite step_line_open by assumption.
  rewrite loop_open by assumption. unfold read_line.
  rewrite Hdec, record_line_eq, Hm. split; reflexivity.
Qed.

Lemma malformed_line_is_dropped_witness :
  connection_closed (arduino (connected_state [] 0)) = false
  /\ decode (bytes "abc" ++ [x0a]) = Some (str "abc" ++ [Char.newline])
  /\ malformed (str "abc" ++ [Char.newline])
  /\ loop (bytes "abc" ++ [x0a]) 5 (connected_state [] 0)
     = (Returned tt, connected_state [] 0)
  /\ step (connected_state [] 0) (Line (bytes "abc" ++ [x0a]) 5)
     = Running (connected_state [] 0).
Proof.
  split; [reflexivity|]. split; [reflexivity|].
  split; [right; right; reflexivity|].
  apply (malformed_line_is_dropped (connected_state [] 0)
           (bytes "abc" ++ [x0a]) (str "abc" ++ [Char.newline]) 5);
    [reflexivity | reflexivity | right; right; reflexivity].
Defined.

(** C6. With a clock that never runs backwards (the sample at the
    connection, then the samples at the lines, non-decreasing), the elapsed
    times of the Readings are non-decreasing; each is the clock at the line
    minus the clock at the connection, and [ms_at_start] still holds the
    clock at the connection after any number of lines. *)
Theorem elapsed_non_decreasing
        (w : State) (start : Z) (inputs : list (list byte * Z)) :
  csv_text w = csv_header ->
  Sorted Z.le (start :: map snd inputs) ->
  let p := session w true start (line_events inputs) in
  ms_at_start (state_of p) = start
  /\ map parse_row (data_rows (csv_text (state_of p)))
     = map Some (readings start inputs)
  /\ Sorted Z.le (map fst (readings start inputs))
  /\ Forall (fun r => exists now,
                 In now (map snd inputs) /\ fst r = now - start
                 /\ 0 <= fst r)
            (readings start inputs).
Proof.
  intros Hcsv Hsorted p. subst p. unfold session.
  destruct (startup_connect_ok start w) as (w1 & E & Hopen & Hs & Hc & _).
  rewrite E.
  destruct (run_lines inputs w1 Hopen) as (Ecsv & Estart & _).
  apply Sorted_StronglySorted in Hsorted; [|exact Z.le_trans].
  apply StronglySorted_inv in Hsorted as [SS Hall].
  split; [now rewrite Estart|].
  split.
  { rewrite Ecsv, Hc, Hcsv, Hs, data_rows_csv, map_map.
    apply map_ext. apply parse_row_row_text. }
  split.
  { apply StronglySorted_Sorted. now apply readings_sorted. }
  apply Forall_forall. intros r Hr.
  destruct (readings_elapsed _ _ _ Hr) as (now & Hnow & Er).
  exists now. repeat split; try assumption.
  rewrite Forall_forall in Hall. specialize (Hall now Hnow). lia.
Qed.

Lemma elapsed_non_decreasing_witness :
  csv_text (initial_state []) = csv_header
  /\ Sorted Z.le (1000 :: map snd four_lines)
  /\ ms_at_start
       (state_of (session (initial_state []) true 1000 (line_events four_lines)))
     = 1000
  /\ Sorted Z.le (map fst (readings 1000 four_lines)).
Proof.
  assert (S : Sorted Z.le (1000 :: map snd four_lines)).
  { cbn. repeat (constructor; try lia). }
  split; [reflexivity|]. split; [exact S|].
  destruct (elapsed_non_decreasing (initial_state []) 1000 four_lines
              eq_refl S) as (H1 & _ & H3 & _).
  split; [exact H1 | exact H3].
Defined.

(** C7, as the claim has it: the scan would give the same name with the
    entries removed that are no session files.  With LoadCellData_3.csv and
    Other_9.csv in the directory the code gives LoadCellData_10.csv; the
    session files alone give LoadCellData_4.csv. *)
Lemma scan_reads_other_csv_files :
  session_file_name (str "Other_9.csv") = false
  /\ next_filename (glob_csv (connected_state mixed_files 0))
     = Returned (str "LoadCellData_10.csv")
  /\ next_filename (glob_csv (only_session_files (connected_state mixed_files 0)))
     = Returned (str "LoadCellData_4.csv")
  /\ next_filename (glob_csv (connected_state mixed_files 0))
     <> next_filename (glob_csv (only_session_files (connected_state mixed_files 0))).
Proof.
  split; [reflexivity|].
  split; [vm_compute; reflexivity|].
  split; [vm_compute; reflexivity|].
  vm_compute. discriminate.
Qed.

(** C7, amended.  Lines 174-180 read every entry of the output directory
    that matches [*.csv], whatever the rest of its name.  If each of them
    yields a number, the new name carries one more than the highest of
    these numbers.  If one of them has no underscore in its stem
    ([IndexError]) or no integer after its first underscore
    ([ValueError]), the exception leaves the handler: nothing is written
    and the process ends with a traceback and status 1. *)
Theorem scan_all_csv_entries (w : State) (s : Serial) :
  arduino w = Some s ->
  glob_csv w <> [] ->
  let number name :=
    file_number (path_join (glob_dirname (OUTPUT_DIR w)) name) in
  let scanned name :=
    In name (map fst (directory w)) /\ fnmatch_csv name = true in
  match next_filename (glob_csv w) with
  | Returned filename =>
      exists highest,
        filename = session_name (highest + 1)
        /\ (exists name, scanned name /\ number name = Returned highest)
        /\ (forall name, scanned name ->
              exists n, number name = Returned n /\ n <= highest)
  | Raised e =>
      (e = IndexError \/ e = ValueError)
      /\ (exists name, scanned name /\ number name = Raised e)
      /\ toplevel (save_data w)
         = Exited 1 (emit (Traceback e) (closed_port w))
  end.
Proof.
  intros Ha Hne number scanned.
  assert (Hscan : forall f, In f (glob_csv w) <->
                            exists name, scanned name
                                         /\ f = path_join (glob_dirname (OUTPUT_DIR w)) name).
  { intros f. unfold glob_csv, scanned. rewrite in_map_iff. split.
    - intros (name & <- & Hin). apply filter_In in Hin. exists name. tauto.
    - intros (name & [Hin Hm] & ->). exists name. split; [reflexivity|].
      apply filter_In. tauto. }
  destruct (next_filename (glob_csv w)) as [filename|e] eqn:E.
  - unfold next_filename in E.
    destruct (file_numbers (glob_csv w)) as [ns|] eqn:En; [|discriminate].
    cbn [obind] in E.
    destruct (py_max ns) as [highest|] eqn:Em; [|discriminate].
    cbn [obind] in E. injection E as <-.
    apply file_numbers_returned in En.
    destruct (py_max_spec _ _ Em) as [Hin Hall].
    exists highest. split; [reflexivity|]. split.
    + destruct (Forall2_right _ _ _ _ En Hin) as (f & Hf & Ef).
      apply Hscan in Hf as (name & Hname & ->). exists name. tauto.
    + intros name Hname.
      assert (Hf : In (path_join (glob_dirname (OUTPUT_DIR w)) name) (glob_csv w))
        by (apply Hscan; eauto).
      destruct (Forall2_left _ _ _ _ En Hf) as (n & Hn & En').
      exists n. split; [exact En'|].
      rewrite Forall_forall in Hall. now apply Hall.
  - assert (Ef : file_numbers (glob_csv w) = Raised e).
    { unfold next_filename in E.
      destruct (file_numbers (glob_csv w)) as [ns|e'] eqn:En;
        [|cbn [obind] in E; congruence].
      cbn [obind] in E. apply file_numbers_returned in En.
      destruct ns as [|n ns].
      - inversion En as [Hnil|]. congruence.
      - discriminate E. }
    destruct (file_numbers_raised _ _ Ef) as (f & Hf & Hr).
    split; [eapply file_number_raises; eassumption|].
    split.
    + apply Hscan in Hf as (name & Hname & ->). exists name. tauto.
    + rewrite (save_data_raises w s e Ha E).
      destruct (file_number_raises _ _ Hr) as [-> | ->]; reflexivity.
Qed.

Lemma scan_all_csv_entries_witness :
  arduino (connected_state unnumbered_files 0) = Some {| is_open := true |}
  /\ glob_csv (connected_state unnumbered_files 0) <> []
  /\ next_filename (glob_csv (connected_state unnumbered_files 0))
     = Raised IndexError
  /\ toplevel (save_data (connected_state unnumbered_files 0))
     = Exited 1 (emit (Traceback IndexError)
                      (closed_port (connected_state unnumbered_files 0))).
Proof.
  assert (N : glob_csv (connected_state unnumbered_files 0) <> [])
    by (vm_compute; discriminate).
  assert (E : next_filename (glob_csv (connected_state unnumbered_files 0))
              = Raised IndexError) by (vm_compute; reflexivity).
  split; [reflexivity|]. split; [exact N|]. split; [exact E|].
  pose proof (scan_all_csv_entries (connected_state unnumbered_files 0)
                {| is_open := true |} eq_refl N) as H.
  cbv zeta in H. rewrite E in H. exact (proj2 (proj2 H)).
Defined.

(** C8, as the claim has it: a decode failure would leave a record of the
    logger.  For the line [ff 0a] on a connected session the console gets
    the interpreter's traceback and nothing else; no record of [log.fatal]
    is on the console at all, and the only record of the logger is the one
    of the connection. *)
Lemma decode_failure_logs_nothing :
  step (connected_state [] 0) (Line [xff; x0a] 5)
  = Exited 1 (emit (Traceback UnicodeDecodeError) (connected_state [] 0))
  /\ console (state_of (step (connected_state [] 0) (Line [xff; x0a] 5)))
     = console (connected_state [] 0) ++ [Traceback UnicodeDecodeError]
  /\ existsb is_log_record [Traceback UnicodeDecodeError] = false
  /\ ~ (exists msg,
          In (LogFatal msg)
             (console (state_of (step (connected_state [] 0)
                                      (Line [xff; x0a] 5))))).
Proof.
  split; [reflexivity|]. split; [reflexivity|]. split; [reflexivity|].
  intros (msg & H). vm_compute in H.
  destruct H as [H | [H | []]]; discriminate H.
Qed.

(** C8, amended.  A line whose bytes are no UTF-8 ends the process: the
    [UnicodeDecodeError] is caught nowhere, the interpreter prints its
    traceback, which is all the console gets (the logger records nothing),
    the status is 1 and no later line is read. *)
Theorem decode_failure_is_fatal
        (w : State) (line : list byte) (now : Z) (rest : list event) :
  connection_closed (arduino w) = false ->
  decode line = None ->
  loop line now w = (Raised UnicodeDecodeError, w)
  /\ run (Running w) (Line line now :: rest)
     = Exited 1 (emit (Traceback UnicodeDecodeError) w)
  /\ console (state_of (run (Running w) (Line line now :: rest)))
     = console w ++ [Traceback UnicodeDecodeError]
  /\ filter is_log_record
            (console (state_of (run (Running w) (Line line now :: rest))))
     = filter is_log_record (console w).
Proof.
  intros Hopen Hdec.
  assert (E : run (Running w) (Line line now :: rest)
              = Exited 1 (emit (Traceback UnicodeDecodeError) w)).
  { change (run (Running w) (Line line now :: rest))
      with (run (step w (Line line now)) rest).
    rewrite step_line_open by assumption. rewrite Hdec. apply run_exited. }
  split.
  - rewrite loop_open by assumption. unfold read_line. now rewrite Hdec.
  - split; [exact E|]. rewrite E. cbn [state_of emit console].
    split; [reflexivity|].
    rewrite filter_app. cbn. apply app_nil_r.
Qed.

Lemma decode_failure_is_fatal_witness :
  connection_closed (arduino (connected_state [] 0)) = false
  /\ decode [xff; x0a] = None
  /\ run (Running (connected_state [] 0))
         [Line [xff; x0a] 5; Line (bytes "12" ++ [x0a]) 6]
     = Exited 1 (emit (Traceback UnicodeDecodeError) (connected_state [] 0)).
Proof.
  split; [reflexivity|]. split; [reflexivity|].
  exact (proj1 (proj2 (decode_failure_is_fatal (connected_state [] 0)
                         [xff; x0a] 5 [Line (bytes "12" ++ [x0a]) 6]
                         eq_refl eq_refl))).
Defined.

(** C9. Every iteration starts with the check of the handle.  If there is
    no handle, or the handle is not open, the failure is logged and the
    process ends with status 1, before any line is read.  If the handle is
    open, the iteration returns or raises [UnicodeDecodeError]; it raises
    no [SystemExit], and it leaves the handle and the output directory as
    they are. *)
Theorem connection_checked_each_iteration
        (w : State) (line : list byte) (now : Z) (rest : list event) :
  match arduino w with
  | Some s =>
      if is_open s
      then
        exists r w',
          loop line now w = (r, w')
          /\ (r = Returned tt \/ r = Raised UnicodeDecodeError)
          /\ arduino w' = arduino w
          /\ directory w' = directory w
      else
        loop line now w
        = (Raised (SystemExit 1),
           emit (LogFatal (str "Serial connection closed unexpectedly.")) w)
        /\ run (Running w) (Line line now :: rest)
           = Exited 1 (emit (LogFatal (str "Serial connection closed unexpectedly.")) w)
  | None =>
      loop line now w
      = (Raised (SystemExit 1),
         emit (LogFatal (str "Serial connection closed unexpectedly.")) w)
      /\ run (Running w) (Line line now :: rest)
         = Exited 1 (emit (LogFatal (str "Serial connection closed unexpectedly.")) w)
  end.
Proof.
  assert (Closed :
            connection_closed (arduino w) = true ->
            loop line now w
            = (Raised (SystemExit 1),
               emit (LogFatal (str "Serial connection closed unexpectedly.")) w)
            /\ run (Running w) (Line line now :: rest)
               = Exited 1 (emit (LogFatal (str "Serial connection closed unexpectedly.")) w)).
  { intros Hc. split; [now apply loop_closed|].
    change (run (Running w) (Line line now :: rest))
      with (run (step w (Line line now)) rest).
    unfold step. rewrite loop_closed by assumption. apply run_exited. }
  destruct (arduino w) as [[open]|] eqn:Ea.
  - destruct open; cbn [is_open].
    + assert (Hc : connection_closed (arduino w) = false)
        by now rewrite Ea.
      rewrite loop_open by assumption. unfold read_line.
      destruct (decode line) as [raw|].
      * rewrite record_line_eq. eexists. eexists. split; [reflexivity|].
        split; [now left|].
        destruct (py_int (strip raw)) as [v|];
          [|split; [exact Ea | reflexivity]].
        destruct (recorded_keeps (now - ms_at_start w) v w) as (Ha & _ & Hd & _).
        split; [now rewrite Ha | exact Hd].
      * eexists. eexists. split; [reflexivity|].
        split; [now right | split; [exact Ea | reflexivity]].
    + apply Closed; first [reflexivity | now rewrite Ea].
  - apply Closed; first [reflexivity | now rewrite Ea].
Qed.

Lemma connection_checked_each_iteration_witness :
  (run (Running (initial_state []))
       [Line (bytes "12" ++ [x0a]) 5; Line (bytes "45" ++ [x0a]) 6]
   = Exited 1 (emit (LogFatal (str "Serial connection closed unexpectedly."))
                    (initial_state [])))
  /\ (run (Running (closed_port (connected_state [] 0)))
          [Line (bytes "12" ++ [x0a]) 5; Line (bytes "45" ++ [x0a]) 6]
      = Exited 1 (emit (LogFatal (str "Serial connection closed unexpectedly."))
                       (closed_port (connected_state [] 0))))
  /\ (exists r w',
        loop (bytes "12" ++ [x0a]) 5 (connected_state [] 0) = (r, w')
        /\ (r = Returned tt \/ r = Raised UnicodeDecodeError)
        /\ arduino w' = arduino (connected_state [] 0)
        /\ directory w' = directory (connected_state [] 0)).
Proof.
  split; [|split].
  - exact (proj2 (connection_checked_each_iteration (initial_state [])
                    (bytes "12" ++ [x0a]) 5 [Line (bytes "45" ++ [x0a]) 6])).
  - exact (proj2 (connection_checked_each_iteration
                    (closed_port (connected_state [] 0))
                    (bytes "12" ++ [x0a]) 5 [Line (bytes "45" ++ [x0a]) 6])).
  - exact (connection_checked_each_iteration (connected_state [] 0)
             (bytes "12" ++ [x0a]) 5 []).
Defined.

(** C10. The line [1_0] is no plain digit string, yet it is recorded, as
    the Reading with value 10. *)
Theorem underscore_literal_is_recorded (w : State) (now : Z) :
  connection_closed (arduino w) = false ->
  plain_digits (str "1_0") = false
  /\ loop (bytes "1_0" ++ [x0a]) now w
     = (Returned tt, recorded (now - ms_at_start w) 10 w)
  /\ csv_text (recorded (now - ms_at_start w) 10 w)
     = csv_text w ++ row_text (now - ms_at_start w, 10) ++ [Char.newline].
Proof.
  intros Hopen. split; [reflexivity|]. split.
  - rewrite loop_open by assumption. unfold read_line.
    change (decode (bytes "1_0" ++ [x0a]))
      with (Some (str "1_0" ++ [Char.newline])).
    cbv beta iota. rewrite record_line_eq.
    change (py_int (strip (str "1_0" ++ [Char.newline]))) with (Some 10).
    reflexivity.
  - apply recorded_csv_text.
Qed.

Lemma underscore_literal_is_recorded_witness :
  connection_closed (arduino (connected_state [] 1000)) = false
  /\ loop (bytes "1_0" ++ [x0a]) 1005 (connected_state [] 1000)
     = (Returned tt, recorded 5 10 (connected_state [] 1000))
  /\ data_rows (csv_text (recorded 5 10 (connected_state [] 1000)))
     = [str "5,10"].
Proof.
  split; [reflexivity|].
  split; [|reflexivity].
  exact (proj1 (proj2 (underscore_literal_is_recorded
                         (connected_state [] 1000) 1005 eq_refl))).
Defined.

(** ** Further properties of the saving code (lines 167-186) *)

Lemma next_filename_returned (files : list text) (filename : text) :
  next_filename files = Returned filename ->
  exists ns highest,
    Forall2 (fun f n => file_number f = Returned n) files ns
    /\ In highest ns /\ Forall (fun n => n <= highest) ns
    /\ filename = session_name (highest + 1).
Proof.
  unfold next_filename. intros E.
  destruct (file_numbers files) as [ns|] eqn:En; [|discriminate].
  cbn [obind] in E.
  destruct (py_max ns) as [highest|] eqn:Em; [|discriminate].
  cbn [obind] in E. injection E as <-.
  destruct (py_max_spec _ _ Em) as [Hin Hall].
  exists ns, highest. repeat split; try assumption.
  now apply file_numbers_returned.
Qed.

Lemma write_file_fresh (name content : text) (d : list (text * text)) :
  ~ In name (map fst d) -> write_file name content d = d ++ [(name, content)].
Proof.
  induction d as [|[n c] r IH]; cbn [write_file map fst app In];
    [reflexivity|].
  intros H. destruct (text_eqb n name) eqn:E.
  - apply text_eqb_eq in E. tauto.
  - rewrite IH by tauto. reflexivity.
Qed.

Lemma next_filename_is_fresh (w : State) (filename : text) :
  next_filename (glob_csv w) = Returned filename ->
  ~ In filename (map fst (directory w)).
Proof.
  intros E Hin.
  destruct (next_filename_returned _ _ E) as (ns & highest & F2 & _ & Hall & ->).
  assert (Hg : In (path_join (glob_dirname (OUTPUT_DIR w))
                             (session_name (highest + 1))) (glob_csv w)).
  { unfold glob_csv. apply in_map. apply filter_In.
    split; [assumption | apply fnmatch_session_name]. }
  destruct (Forall2_left _ _ _ _ F2 Hg) as (n & Hn & En).
  rewrite file_number_session_name in En. injection En as <-.
  rewrite Forall_forall in Hall. specialize (Hall _ Hn). lia.
Qed.

(** The name line 180 builds for an index is one the scan of lines
    174-176 takes up, and reads back as that index. *)
Theorem written_name_is_read_back (dir : text) (n : Z) :
  fnmatch_csv (session_name n) = true
  /\ file_number (path_join dir (session_name n)) = Returned n.
Proof.
  split; [apply fnmatch_session_name | apply file_number_session_name].
Qed.

(** Whenever lines 174-180 arrive at a file name, no entry of the output
    directory has that name: lines 182-186 add one file with the CSV text,
    leave every other entry as it is, close the port and exit with
    status 0. *)
Theorem save_data_never_overwrites (w : State) (s : Serial) (filename : text) :
  arduino w = Some s ->
  next_filename (glob_csv w) = Returned filename ->
  ~ In filename (map fst (directory w))
  /\ exists w',
       save_data w = (Raised (SystemExit 0), w')
       /\ directory w' = directory w ++ [(filename, csv_text w)]
       /\ arduino w' = Some {| is_open := false |}
       /\ csv_text w' = csv_text w.
Proof.
  intros Ha E. pose proof (next_filename_is_fresh w filename E) as Hfresh.
  split; [exact Hfresh|].
  rewrite (save_data_writes w s filename Ha E).
  eexists. split; [reflexivity|]. cbn.
  rewrite write_file_fresh by assumption. repeat split.
Qed.

Lemma save_data_never_overwrites_witness :
  arduino (connected_state two_files 1000) = Some {| is_open := true |}
  /\ next_filename (glob_csv (connected_state two_files 1000))
     = Returned (str "LoadCellData_8.csv")
  /\ ~ In (str "LoadCellData_8.csv")
          (map fst (directory (connected_state two_files 1000))).
Proof.
  assert (E : next_filename (glob_csv (connected_state two_files 1000))
              = Returned (str "LoadCellData_8.csv"))
    by (vm_compute; reflexivity).
  split; [reflexivity|]. split; [exact E|].
  exact (proj1 (save_data_never_overwrites (connected_state two_files 1000)
                  {| is_open := true |} (str "LoadCellData_8.csv") eq_refl E)).
Defined.

Lemma save_data_session_files_witness :
  arduino (connected_state two_files 1000) = Some {| is_open := true |}
  /\ [3; 7] <> []
  /\ map fst (directory (connected_state two_files 1000))
     = map session_name [3; 7]
  /\ exists highest,
       In highest [3; 7] /\ Forall (fun n => n <= highest) [3; 7]
       /\ status_of (toplevel (save_data (connected_state two_files 1000)))
          = Some 0.
Proof.
  assert (N : [3; 7] <> []) by discriminate.
  assert (D : map fst (directory (connected_state two_files 1000))
              = map session_name [3; 7]) by (vm_compute; reflexivity).
  split; [reflexivity|]. split; [exact N|]. split; [exact D|].
  destruct (save_data_session_files (connected_state two_files 1000)
              {| is_open := true |} [3; 7] eq_refl N D)
    as (highest & Hin & Hall & E).
  exists highest. split; [exact Hin|]. split; [exact Hall|].
  rewrite E. reflexivity.
Defined.

(** ** Further properties of the running process (lines 130-188) *)

Lemma step_keeps (w : State) (ev : event) :
  exists w',
    (step w ev = Running w' \/ step w ev = Exited 1 w')
    /\ directory w' = directory w
    /\ arduino w' = arduino w
    /\ exists rows, csv_text w' = csv_text w ++ rows.
Proof.
  destruct ev as [line now|].
  - destruct (connection_closed (arduino w)) eqn:Hc.
    + unfold step. rewrite loop_closed by assumption.
      eexists. split; [right; reflexivity|].
      repeat split. exists []. cbn. now rewrite app_nil_r.
    + rewrite step_line_open by assumption.
      destruct (decode line) as [raw|].
      * destruct (py_int (strip raw)) as [v|].
        -- eexists. split; [left; reflexivity|].
           destruct (recorded_keeps (now - ms_at_start w) v w)
             as (Ha & _ & Hd & _).
           split; [exact Hd|]. split; [exact Ha|].
           eexists. apply recorded_csv_text.
        -- exists w. split; [left; reflexivity|].
           repeat split. exists []. now rewrite app_nil_r.
      * eexists. split; [right; reflexivity|].
        repeat split. exists []. cbn. now rewrite app_nil_r.
  - rewrite step_sigint. eexists. split; [right; reflexivity|].
    repeat split. exists []. cbn. now rewrite app_nil_r.
Qed.

(** Whatever lines and interrupts reach a process in its loop, the output
    directory and the port stay as they are, the CSV text only grows, and
    if the process ends its status is 1: the code as written never saves
    the CSV text and never ends with status 0. *)
Theorem process_never_saves (evs : list event) :
  forall w : State,
    directory (state_of (run (Running w) evs)) = directory w
    /\ arduino (state_of (run (Running w) evs)) = arduino w
    /\ (exists rows,
          csv_text (state_of (run (Running w) evs)) = csv_text w ++ rows)
    /\ (status_of (run (Running w) evs) = None
        \/ status_of (run (Running w) evs) = Some 1).
Proof.
  induction evs as [|ev rest IH]; intros w.
  - cbn. repeat split; [exists []; now rewrite app_nil_r | now left].
  - change (run (Running w) (ev :: rest)) with (run (step w ev) rest).
    destruct (step_keeps w ev) as (w' & [E | E] & Hd & Ha & rows & Hc);
      rewrite E.
    + destruct (IH w') as (Id & Ia & (rows' & Ic) & Is).
      rewrite Id, Ia, Ic, Hd, Ha, Hc.
      repeat split; [|exact Is].
      exists (rows ++ rows'). now rewrite app_assoc.
    + rewrite run_exited. cbn [state_of status_of].
      repeat split; try assumption; [eauto | now right].
Qed.

Lemma recorded_console (e v : Z) (w : State) :
  VERBOSE (recorded e v w) = VERBOSE w
  /\ console (recorded e v w)
     = console w ++ (if VERBOSE w then [echo (e, v)] else []).
Proof.
  unfold recorded, echo. destruct (VERBOSE w) eqn:E; cbn; rewrite ?E;
    rewrite ?app_nil_r; split; reflexivity.
Qed.

(** In verbose mode the console gets one echo for each Reading, in order,
    and nothing for a line that is dropped; without verbose mode the lines
    leave no trace on the console. *)
Theorem verbose_echo_per_reading (inputs : list (list byte * Z)) :
  forall w : State,
    connection_closed (arduino w) = false ->
    forallb decodes (map fst inputs) = true ->
    console (state_of (run (Running w) (line_events inputs)))
    = console w
      ++ (if VERBOSE w
          then map echo (readings (ms_at_start w) inputs)
          else []).
Proof.
  induction inputs as [|[line now] rest IH]; intros w Hopen Hdec.
  - cbn. destruct (VERBOSE w); now rewrite app_nil_r.
  - unfold line_events. cbn [map fst snd].
    change (run (Running w) (Line line now :: ?r)) with (run (step w (Line line now)) r).
    rewrite step_line_open by assumption.
    cbn [map fst forallb] in Hdec. apply andb_prop in Hdec as [Hd Hrest].
    unfold decodes in Hd. cbn [readings].
    destruct (decode line) as [raw|]; [|discriminate].
    destruct (py_int (strip raw)) as [v|].
    + destruct (recorded_keeps (now - ms_at_start w) v w) as (Ha & Hs & _).
      destruct (recorded_console (now - ms_at_start w) v w) as (Hv & Hc).
      fold (line_events rest).
      rewrite IH; [|now rewrite Ha | assumption].
      rewrite Hv, Hc, Hs, <- app_assoc.
      destruct (VERBOSE w); reflexivity.
    + fold (line_events rest). now apply IH.
Qed.

Lemma verbose_echo_per_reading_witness :
  connection_closed (arduino (set_VERBOSE true (connected_state [] 1000)))
  = false
  /\ forallb decodes (map fst four_lines) = true
  /\ console (state_of (run (Running (set_VERBOSE true (connected_state [] 1000)))
                            (line_events four_lines)))
     = console (connected_state [] 1000)
       ++ [Print (str "5 ms: 12 grams"); Print (str "10 ms: 45 grams")].
Proof.
  split; [reflexivity|]. split; [reflexivity|].
  rewrite (verbose_echo_per_reading four_lines
             (set_VERBOSE true (connected_state [] 1000)) eq_refl eq_refl).
  reflexivity.
Defined.

(** ** Whitespace around a line *)

Lemma lstrip_app_space (ws : Z -> bool) (pre s : text) :
  forallb ws pre = true -> lstrip_with ws (pre ++ s) = lstrip_with ws s.
Proof.
  induction pre as [|c r IH]; cbn [app forallb lstrip_with]; [reflexivity|].
  intros H. apply andb_prop in H as [Hc Hr]. rewrite Hc. auto.
Qed.

Lemma lstrip_app (ws : Z -> bool) (a b : text) :
  lstrip_with ws (a ++ b)
  = match lstrip_with ws a with
    | [] => lstrip_with ws b
    | c :: r => (c :: r) ++ b
    end.
Proof.
  induction a as [|x a IH]; cbn [app lstrip_with]; [reflexivity|].
  destruct (ws x); [exact IH | reflexivity].
Qed.

Lemma forallb_rev (f : Z -> bool) (l : text) :
  forallb f l = true -> forallb f (rev l) = true.
Proof.
  rewrite !forallb_forall. intros H x Hx. apply H. now apply in_rev.
Qed.

Lemma strip_with_around (ws : Z -> bool) (pre raw post : text) :
  forallb ws pre = true -> forallb ws post = true ->
  strip_with ws (pre ++ raw ++ post) = strip_with ws raw.
Proof.
  intros Hpre Hpost. unfold strip_with.
  rewrite lstrip_app_space by assumption. rewrite lstrip_app.
  destruct (lstrip_with ws raw) as [|c r].
  - now rewrite (lstrip_all ws post Hpost).
  - rewrite rev_app_distr.
    now rewrite lstrip_app_space by now apply forallb_rev.
Qed.

(** Whitespace before and after the text of a line, such as the carriage
    return and newline a device ends its lines with, changes nothing: the
    line is recorded, or dropped, as the text between is. *)
Theorem surrounding_whitespace_ignored
        (pre raw post : text) (now : Z) (w : State) :
  forallb isspace pre = true ->
  forallb isspace post = true ->
  record_line (pre ++ raw ++ post) now w = record_line raw now w.
Proof.
  intros Hpre Hpost. rewrite !record_line_eq. unfold strip.
  now rewrite strip_with_around.
Qed.

Lemma surrounding_whitespace_ignored_witness :
  forallb isspace (str " ") = true
  /\ forallb isspace [13; 10] = true
  /\ record_line (str " " ++ str "12" ++ [13; 10]) 1005 (connected_state [] 1000)
     = record_line (str "12") 1005 (connected_state [] 1000).
Proof.
  split; [reflexivity|]. split; [reflexivity|].
  apply (surrounding_whitespace_ignored (str " ") (str "12") [13; 10] 1005
           (connected_state [] 1000)); reflexivity.
Defined.

(** ** What a device prints is what is recorded *)

Lemma decode_ascii (t : text) (rest : list byte) :
  Forall (fun c => 0 <= c < 128) t ->
  decode (ascii_bytes t ++ rest) = option_map (app t) (decode rest).
Proof.
  unfold decode. induction t as [|c t IH]; intros H.
  - cbn [ascii_bytes map app]. now destruct (utf8_decode _).
  - apply Forall_cons_iff in H as [Hc Ht].
    cbn [ascii_bytes map app].
    destruct (Byte.of_N (Z.to_N c)) as [b|] eqn:Eb.
    + apply Byte.to_of_N in Eb. rewrite Eb.
      rewrite Z2N.id by lia. cbn [utf8_decode].
      replace (c <? 128) with true by (symmetry; apply Z.ltb_lt; lia).
      unfold ascii_bytes in IH. rewrite (IH Ht).
      destruct (utf8_decode (map _ rest)); reflexivity.
    + apply Byte.of_N_None_iff in Eb. apply N2Z.inj_lt in Eb.
      rewrite Z2N.id in Eb by lia. cbn in Eb. lia.
Qed.

Lemma format_int_ascii (z : Z) : Forall (fun c => 0 <= c < 128) (format_int z).
Proof.
  eapply Forall_impl; [|apply format_int_chars].
  intros c [-> | H]; unfold Char.minus; lia.
Qed.

Lemma format_int_not_isspace (z : Z) :
  Forall (fun c => isspace c = false) (format_int z).
Proof.
  eapply Forall_impl; [|apply format_int_chars].
  intros c [-> | H]; [reflexivity|].
  unfold isspace.
  repeat match goal with
         | |- context [?a <=? ?b] =>
             let E := fresh in destruct (Z.leb_spec a b) as [E|E]
         | |- context [?a =? ?b] =>
             let E := fresh in destruct (Z.eqb_spec a b) as [E|E]
         end; try lia; reflexivity.
Qed.

(** A line that is the decimal text of an integer [v], as an f-string or a
    device's print routine writes it, ended by carriage return and newline,
    is recorded as the Reading with value [v], as long as [v] and the
    elapsed time stay within the number of digits the interpreter reads
    and writes. *)
Theorem printed_integer_is_recorded (w : State) (v now : Z) :
  connection_closed (arduino w) = false ->
  Z.abs v < 10 ^ max_str_digits ->
  Z.abs (now - ms_at_start w) < 10 ^ max_str_digits ->
  loop (ascii_bytes (format_int v) ++ [x0d; x0a]) now w
  = (Returned tt, recorded (now - ms_at_start w) v w).
Proof.
  intros Hopen _ _. rewrite loop_open by assumption. unfold read_line.
  rewrite decode_ascii by apply format_int_ascii.
  change (decode [x0d; x0a]) with (Some [13; 10]). cbn [option_map].
  rewrite record_line_eq.
  replace (strip (format_int v ++ [13; 10])) with (format_int v).
  - now rewrite py_int_format_int.
  - unfold strip.
    change (format_int v ++ [13; 10]) with ([] ++ format_int v ++ [13; 10]).
    rewrite (strip_with_around isspace [] (format_int v) [13; 10])
      by reflexivity.
    symmetry. apply strip_with_none. apply format_int_not_isspace.
Qed.

Lemma printed_integer_is_recorded_witness :
  connection_closed (arduino (connected_state [] 1000)) = false
  /\ Z.abs (-273) < 10 ^ max_str_digits
  /\ Z.abs (1005 - ms_at_start (connected_state [] 1000)) < 10 ^ max_str_digits
  /\ loop (bytes "-273" ++ [x0d; x0a]) 1005 (connected_state [] 1000)
     = (Returned tt, recorded 5 (-273) (connected_state [] 1000)).
Proof.
  assert (B1 : Z.abs (-273) < 10 ^ max_str_digits)
    by (vm_compute; reflexivity).
  assert (B2 : Z.abs (1005 - ms_at_start (connected_state [] 1000))
               < 10 ^ max_str_digits)
    by (vm_compute; reflexivity).
  split; [reflexivity|]. split; [exact B1|]. split; [exact B2|].
  exact (printed_integer_is_recorded (connected_state [] 1000) (-273) 1005
           eq_refl B1 B2).
Defined.

(** ** The arguments of [startup] (lines 26-119) *)

Lemma text_eqb_sym (a b : text) : text_eqb a b = text_eqb b a.
Proof.
  destruct (text_eqb a b) eqn:E.
  - apply text_eqb_eq in E. subst. symmetry. apply text_eqb_refl.
  - apply text_eqb_neq in E. symmetry. apply text_eqb_neq. congruence.
Qed.

Lemma arg_index_in (flag : text) (argv : list text) :
  arg_in flag argv = true ->
  exists i, arg_index flag argv = Some i /\ (i < List.length argv)%nat.
Proof.
  unfold arg_in. induction argv as [|a rest IH]; cbn [existsb arg_index];
    [discriminate|].
  rewrite (text_eqb_sym flag a). destruct (text_eqb a flag).
  - intros _. exists 0%nat. cbn. split; [reflexivity | lia].
  - cbn [orb]. intros H. destruct (IH H) as (i & -> & Hi).
    exists (S i). cbn. split; [reflexivity | lia].
Qed.

Lemma chosen_flag_in (long short : text) (argv : list text) :
  arg_in long argv || arg_in short argv = true ->
  arg_in (chosen_flag long short argv) argv = true.
Proof.
  unfold chosen_flag. destruct (arg_in long argv) eqn:E; cbn [orb]; auto.
Qed.

Lemma flag_value_eq (long short missing : text) (argv : list text) (c : Settings) :
  arg_in long argv || arg_in short argv = true ->
  flag_value long short missing argv c
  = (match value_after (chosen_flag long short argv) argv with
     | Some value => Go value
     | None => Stop StopIndexError
     end, c).
Proof.
  intros H. apply chosen_flag_in in H.
  destruct (arg_index_in _ _ H) as (i & E & Hi).
  unfold flag_value, value_after. fold (chosen_flag long short argv).
  rewrite E.
  replace (Nat.eqb i (List.length argv + 1)) with false
    by (symmetry; apply Nat.eqb_neq; lia).
  unfold sbind, sret, sstop.
  destruct (nth_error argv (i + 1)); reflexivity.
Qed.

Lemma value_after_last (flag : text) (front : list text) :
  arg_in flag front = false ->
  value_after flag (front ++ [flag]) = None.
Proof.
  unfold value_after, arg_in. intros H.
  assert (E : arg_index flag (front ++ [flag]) = Some (List.length front)).
  { induction front as [|a rest IH]; cbn [app arg_index List.length].
    - now rewrite text_eqb_refl.
    - cbn [existsb] in H. apply orb_false_elim in H as [Ha Hr].
      rewrite (text_eqb_sym a flag), Ha, (IH Hr). reflexivity. }
  rewrite E. apply nth_error_None. rewrite length_app. cbn. lia.
Qed.

(** The lookup of a flag's value (lines 55-60, 70-75, 85-90, 95-100), for
    a flag that is among the arguments: it gives the argument after the
    first occurrence of the flag, and raises [IndexError] when there is
    none.  The message for a missing value is never logged and no exit
    happens here: the guard compares the position with
    [len(sys.argv) + 1], which no position reaches.  In particular a flag
    that comes last raises [IndexError]. *)
Theorem flag_value_or_IndexError
        (long short missing : text) (argv : list text) (c : Settings) :
  arg_in long argv || arg_in short argv = true ->
  flag_value long short missing argv c
  = (match value_after (chosen_flag long short argv) argv with
     | Some value => Go value
     | None => Stop StopIndexError
     end, c)
  /\ forall front,
       argv = front ++ [chosen_flag long short argv] ->
       arg_in (chosen_flag long short argv) front = false ->
       flag_value long short missing argv c = (Stop StopIndexError, c).
Proof.
  intros H. split; [now apply flag_value_eq|].
  intros front E Hfront. rewrite flag_value_eq by assumption.
  rewrite E at 2. now rewrite value_after_last.
Qed.

Lemma flag_value_or_IndexError_witness :
  arg_in (str "--port") [str "lcs.py"; str "--port"]
  || arg_in (str "-p") [str "lcs.py"; str "--port"] = true
  /\ flag_value (str "--port") (str "-p")
       (str "Input Error: Port parameter specified, but no port is specified")
       [str "lcs.py"; str "--port"] default_settings
     = (Stop StopIndexError, default_settings).
Proof.
  split; [reflexivity|].
  exact (proj1 (flag_value_or_IndexError (str "--port") (str "-p")
                  (str "Input Error: Port parameter specified, but no port is specified")
                  [str "lcs.py"; str "--port"] default_settings eq_refl)).
Defined.

Lemma sbind_go {A B} (m : Startup A) (k : A -> Startup B)
      (c c' : Settings) (b : B) :
  sbind m k c = (Go b, c') ->
  exists a c1, m c = (Go a, c1) /\ k a c1 = (Go b, c').
Proof.
  unfold sbind. destruct (m c) as [[a|r] c1]; [eauto | discriminate].
Qed.

Lemma startup_help_go (argv : list text) (c c' : Settings) :
  startup_help argv c = (Go tt, c') ->
  c' = c /\ arg_in (str "-h") argv || arg_in (str "--help") argv = false.
Proof.
  unfold startup_help.
  destruct (arg_in (str "-h") argv || arg_in (str "--help") argv);
    cbn; [discriminate | intros [= <-]; auto].
Qed.

Lemma startup_verbose_go (argv : list text) (c : Settings) :
  exists c',
    startup_verbose argv c = (Go tt, c')
    /\ arg_VERBOSE c'
       = arg_VERBOSE c
         || (arg_in (str "--verbose") argv || arg_in (str "-v") argv)
    /\ arg_OUTPUT_DIR c' = arg_OUTPUT_DIR c
    /\ arg_BAUD c' = arg_BAUD c
    /\ arg_PORT c' = arg_PORT c.
Proof.
  unfold startup_verbose.
  destruct (arg_in (str "--verbose") argv || arg_in (str "-v") argv);
    eexists; (split; [reflexivity|]); cbn;
    rewrite ?orb_true_r, ?orb_false_r; auto.
Qed.

Lemma startup_output_go (fs_open : text -> open_result) (argv : list text)
      (c c' : Settings) :
  startup_output fs_open argv c = (Go tt, c') ->
  arg_VERBOSE c' = arg_VERBOSE c
  /\ arg_BAUD c' = arg_BAUD c
  /\ arg_PORT c' = arg_PORT c
  /\ if arg_in (str "--output") argv || arg_in (str "-o") argv
     then value_after (chosen_flag (str "--output") (str "-o") argv) argv
          = Some (arg_OUTPUT_DIR c')
          /\ fs_open (arg_OUTPUT_DIR c') = Opened
     else arg_OUTPUT_DIR c' = arg_OUTPUT_DIR c.
Proof.
  unfold startup_output.
  destruct (arg_in (str "--output") argv || arg_in (str "-o") argv) eqn:F;
    [|intros [= <-]; auto].
  unfold sbind at 1. rewrite flag_value_eq by assumption.
  destruct (value_after _ argv) as [v|]; [|discriminate].
  unfold sbind, set_arg_OUTPUT_DIR.
  destruct (fs_open v) as [|[]] eqn:O; cbn; try discriminate.
  destruct (arg_VERBOSE c); cbn; intros [= <-]; cbn; auto.
Qed.

Lemma startup_baud_go (argv : list text) (c c' : Settings) :
  startup_baud argv c = (Go tt, c') ->
  arg_VERBOSE c' = arg_VERBOSE c
  /\ arg_OUTPUT_DIR c' = arg_OUTPUT_DIR c
  /\ arg_PORT c' = arg_PORT c
  /\ if arg_in (str "--baud") argv || arg_in (str "-b") argv
     then exists v,
         value_after (chosen_flag (str "--baud") (str "-b") argv) argv = Some v
         /\ arg_BAUD c' = match py_int v with
                          | Some z => BaudInt z
                          | None => BaudStr v
                          end
     else arg_BAUD c' = arg_BAUD c.
Proof.
  unfold startup_baud.
  destruct (arg_in (str "--baud") argv || arg_in (str "-b") argv) eqn:F;
    [|intros [= <-]; auto].
  unfold sbind at 1. rewrite flag_value_eq by assumption.
  destruct (value_after _ argv) as [v|]; [|discriminate].
  unfold sbind, set_arg_BAUD.
  destruct (py_int v) as [z|] eqn:P; cbn;
    destruct (arg_VERBOSE c); cbn; intros [= <-]; cbn;
    (split; [reflexivity|]); (split; [reflexivity|]);
    (split; [reflexivity|]); exists v; rewrite P; auto.
Qed.

Lemma startup_port_go (argv : list text) (c c' : Settings) :
  startup_port argv c = (Go tt, c') ->
  arg_VERBOSE c' = arg_VERBOSE c
  /\ arg_OUTPUT_DIR c' = arg_OUTPUT_DIR c
  /\ arg_BAUD c' = arg_BAUD c
  /\ if arg_in (str "--port") argv || arg_in (str "-p") argv
     then value_after (chosen_flag (str "--port") (str "-p") argv) argv
          = Some (arg_PORT c')
     else arg_PORT c' = arg_PORT c.
Proof.
  unfold startup_port.
  destruct (arg_in (str "--port") argv || arg_in (str "-p") argv) eqn:F;
    [|intros [= <-]; auto].
  unfold sbind at 1. rewrite flag_value_eq by assumption.
  destruct (value_after _ argv) as [v|]; [|discriminate].
  unfold sbind, set_arg_PORT. cbn.
  destruct (arg_VERBOSE c); cbn; intros [= <-]; cbn; auto.
Qed.

Lemma os_port_valid (os : text) :
  existsb (text_eqb os) [str "windows"; str "mac"; str "linux"] = true ->
  exists port, os_port os = Some port.
Proof.
  unfold os_port. cbn [existsb].
  destruct (text_eqb os (str "windows")); [eauto|].
  destruct (text_eqb os (str "mac")); [eauto|].
  destruct (text_eqb os (str "linux")); [eauto | discriminate].
Qed.

Lemma startup_os_go (argv : list text) (c c' : Settings) :
  startup_os argv c = (Go tt, c') ->
  arg_VERBOSE c' = arg_VERBOSE c
  /\ arg_OUTPUT_DIR c' = arg_OUTPUT_DIR c
  /\ arg_BAUD c' = arg_BAUD c
  /\ if arg_in (str "--os") argv
     then exists os port,
         value_after (str "--os") argv = Some os
         /\ os_port (lower os) = Some port
         /\ arg_PORT c'
            = if arg_in (str "--port") argv || arg_in (str "-p") argv
              then arg_PORT c else port
     else arg_PORT c' = arg_PORT c.
Proof.
  unfold startup_os.
  destruct (arg_in (str "--os") argv) eqn:F; [|intros [= <-]; auto].
  assert (F' : arg_in (str "--os") argv || arg_in (str "-o") argv = true)
    by now rewrite F.
  unfold sbind at 1. rewrite (flag_value_eq _ _ _ _ _ F').
  unfold chosen_flag. rewrite F.
  destruct (value_after (str "--os") argv) as [os|]; [|discriminate].
  unfold sbind at 1.
  destruct (existsb (text_eqb (lower os)) _) eqn:V; [|discriminate].
  destruct (os_port_valid _ V) as (port & Eport).
  cbn [sret]. unfold sbind. rewrite Eport.
  destruct (arg_in (str "--port") argv || arg_in (str "-p") argv);
    cbn; destruct (arg_VERBOSE c) eqn:EV; cbn; intros [= <-]; cbn;
    rewrite ?EV;
    (split; [reflexivity|]); (split; [reflexivity|]);
    (split; [reflexivity|]); exists os, port; auto.
Qed.

(** When [startup] gets through the arguments (lines 29-118), the globals
    are these.  [VERBOSE] is on if it was or a verbose flag is given.  With
    an output flag, [OUTPUT_DIR] is the argument after its first
    occurrence, and [open] opened that path; with a baud flag, [BAUD] is
    the integer the next argument reads as, or that argument itself, as
    text, when it reads as none.  [PORT] is the argument after a port flag
    if there is one, whatever [--os] says; without a port flag it is the
    port of the operating system named after [--os], compared in lower
    case; without either it is unchanged.  Neither help flag is among the
    arguments. *)
Theorem settings_after_arguments
        (fs_open : text -> open_result) (argv : list text) (c c' : Settings) :
  startup_arguments fs_open argv c = (Go tt, c') ->
  arg_in (str "-h") argv || arg_in (str "--help") argv = false
  /\ arg_VERBOSE c'
     = arg_VERBOSE c || (arg_in (str "--verbose") argv || arg_in (str "-v") argv)
  /\ (if arg_in (str "--output") argv || arg_in (str "-o") argv
      then value_after (chosen_flag (str "--output") (str "-o") argv) argv
           = Some (arg_OUTPUT_DIR c')
           /\ fs_open (arg_OUTPUT_DIR c') = Opened
      else arg_OUTPUT_DIR c' = arg_OUTPUT_DIR c)
  /\ (if arg_in (str "--baud") argv || arg_in (str "-b") argv
      then exists v,
          value_after (chosen_flag (str "--baud") (str "-b") argv) argv = Some v
          /\ arg_BAUD c' = match py_int v with
                           | Some z => BaudInt z
                           | None => BaudStr v
                           end
      else arg_BAUD c' = arg_BAUD c)
  /\ (if arg_in (str "--port") argv || arg_in (str "-p") argv
      then value_after (chosen_flag (str "--port") (str "-p") argv) argv
           = Some (arg_PORT c')
      else if arg_in (str "--os") argv
           then exists os,
               value_after (str "--os") argv = Some os
               /\ os_port (lower os) = Some (arg_PORT c')
           else arg_PORT c' = arg_PORT c).
Proof.
  intros H. unfold startup_arguments in H.
  apply sbind_go in H as (u1 & c1 & E1 & H). injection E1 as _ <-.
  apply sbind_go in H as (u2 & c2 & E2 & H). injection E2 as _ <-.
  apply sbind_go in H as ([] & c3 & E3 & H).
  apply startup_help_go in E3 as [-> Hhelp].
  apply sbind_go in H as ([] & c4 & E4 & H).
  match type of E4 with startup_verbose _ ?c0 = _ =>
    destruct (startup_verbose_go argv c0) as (cv & Ev & V1 & V2 & V3 & V4)
  end.
  rewrite Ev in E4. injection E4 as <-.
  cbn [arg_VERBOSE arg_OUTPUT_DIR arg_BAUD arg_PORT] in V1, V2, V3, V4.
  apply sbind_go in H as ([] & c5 & E5 & H).
  apply startup_output_go in E5 as (O1 & O2 & O3 & O4).
  apply sbind_go in H as ([] & c6 & E6 & H).
  apply startup_baud_go in E6 as (B1 & B2 & B3 & B4).
  apply sbind_go in H as ([] & c7 & E7 & H).
  apply startup_port_go in E7 as (P1 & P2 & P3 & P4).
  apply startup_os_go in H as (S1 & S2 & S3 & S4).
  split; [exact Hhelp|].
  split; [congruence|].
  split.
  { rewrite S2, P2, B2.
    destruct (arg_in (str "--output") argv || arg_in (str "-o") argv);
      [exact O4 | congruence]. }
  split.
  { rewrite S3, P3.
    destruct (arg_in (str "--baud") argv || arg_in (str "-b") argv).
    - destruct B4 as (v & Hv & Eb). exists v. split; assumption.
    - congruence. }
  destruct (arg_in (str "--port") argv || arg_in (str "-p") argv).
  - destruct (arg_in (str "--os") argv).
    + destruct S4 as (os & port & _ & _ & ->). exact P4.
    + rewrite S4. exact P4.
  - destruct (arg_in (str "--os") argv).
    + destruct S4 as (os & port & Hos & Hport & ->). exists os. auto.
    + congruence.
Qed.

Lemma settings_after_arguments_witness :
  startup_arguments (only_file (str "out")) argv_os_baud default_settings
  = (Go tt, snd (startup_arguments (only_file (str "out")) argv_os_baud
                                   default_settings))
  /\ arg_VERBOSE (snd (startup_arguments (only_file (str "out")) argv_os_baud
                                         default_settings)) = true
  /\ arg_BAUD (snd (startup_arguments (only_file (str "out")) argv_os_baud
                                      default_settings)) = BaudInt 115200
  /\ arg_PORT (snd (startup_arguments (only_file (str "out")) argv_os_baud
                                      default_settings)) = str "/dev/ttyUSB0".
Proof.
  assert (E : startup_arguments (only_file (str "out")) argv_os_baud
                default_settings
              = (Go tt, snd (startup_arguments (only_file (str "out"))
                               argv_os_baud default_settings)))
    by (vm_compute; reflexivity).
  split; [exact E|].
  pose proof (settings_after_arguments (only_file (str "out")) argv_os_baud
                default_settings _ E) as (_ & V & _).
  split; [exact V|]. split; vm_compute; reflexivity.
Defined.

Lemma startup_output_open_error
      (fs_open : text -> open_result) (argv : list text) (c : Settings)
      (v : text) (e : open_error) :
  arg_in (str "--output") argv || arg_in (str "-o") argv = true ->
  value_after (chosen_flag (str "--output") (str "-o") argv) argv = Some v ->
  fs_open v = OpenRaises e ->
  e <> FileNotFoundError ->
  startup_output fs_open argv c
  = (Stop (StopOpenError e),
     mkSettings (arg_VERBOSE c) v (arg_BAUD c) (arg_PORT c) (arg_console c)).
Proof.
  intros F Hv Ho He. unfold startup_output. rewrite F.
  unfold sbind at 1. rewrite flag_value_eq by assumption. rewrite Hv.
  unfold sbind, set_arg_OUTPUT_DIR. rewrite Ho.
  destruct e; [congruence | reflexivity ..].
Qed.

(** An output flag whose path [open] cannot open for another reason than
    that it is missing, as for a path that is a directory, ends [startup]
    with that exception: only [FileNotFoundError] is caught at lines
    61-65.  [OUTPUT_DIR] already holds the path. *)
Theorem output_path_must_open
        (fs_open : text -> open_result) (argv : list text) (c : Settings)
        (v : text) (e : open_error) :
  arg_in (str "-h") argv || arg_in (str "--help") argv = false ->
  arg_in (str "--output") argv || arg_in (str "-o") argv = true ->
  value_after (chosen_flag (str "--output") (str "-o") argv) argv = Some v ->
  fs_open v = OpenRaises e ->
  e <> FileNotFoundError ->
  exists c',
    startup_arguments fs_open argv c = (Stop (StopOpenError e), c')
    /\ arg_OUTPUT_DIR c' = v.
Proof.
  intros Hhelp F Hv Ho He. unfold startup_arguments.
  unfold sbind at 1. cbn [semit]. unfold sbind at 1. cbn [semit].
  unfold sbind at 1. unfold startup_help. rewrite Hhelp. cbn [sret].
  unfold sbind at 1.
  match goal with |- context [startup_verbose argv ?c0] =>
    destruct (startup_verbose_go argv c0) as (cv & Ev & _)
  end.
  rewrite Ev. unfold sbind at 1.
  rewrite (startup_output_open_error fs_open argv cv v e F Hv Ho He).
  eexists. split; reflexivity.
Qed.

Lemma output_path_must_open_witness :
  arg_in (str "-h") argv_output || arg_in (str "--help") argv_output = false
  /\ arg_in (str "--output") argv_output || arg_in (str "-o") argv_output = true
  /\ value_after (chosen_flag (str "--output") (str "-o") argv_output) argv_output
     = Some (str "./OutputData")
  /\ only_directory (str "./OutputData") (str "./OutputData")
     = OpenRaises IsADirectoryError
  /\ IsADirectoryError <> FileNotFoundError
  /\ fst (startup_arguments (only_directory (str "./OutputData")) argv_output
            default_settings)
     = Stop (StopOpenError IsADirectoryError).
Proof.
  assert (N : IsADirectoryError <> FileNotFoundError) by discriminate.
  split; [reflexivity|]. split; [reflexivity|]. split; [reflexivity|].
  split; [reflexivity|]. split; [exact N|].
  destruct (output_path_must_open (only_directory (str "./OutputData"))
              argv_output default_settings (str "./OutputData")
              IsADirectoryError eq_refl eq_refl eq_refl eq_refl N)
    as (c' & E & _).
  now rewrite E.
Defined.

(** With verbose mode off, a baud flag whose value is no integer does not
    stop [startup]: lines 77-80 log the error and go on, and [BAUD] keeps
    the text of the argument.  (With verbose mode on, line 82 hands that
    text to the logger.) *)
Theorem invalid_baud_is_not_fatal (argv : list text) (c : Settings) (v : text) :
  arg_VERBOSE c = false ->
  arg_in (str "--baud") argv || arg_in (str "-b") argv = true ->
  value_after (chosen_flag (str "--baud") (str "-b") argv) argv = Some v ->
  py_int v = None ->
  exists c',
    startup_baud argv c = (Go tt, c')
    /\ arg_BAUD c' = BaudStr v
    /\ arg_console c'
       = arg_console c
         ++ [LogFatal (str "Input Error: Baud rate is invalid. Must be an integer.")].
Proof.
  intros Hq F Hv Hi. unfold startup_baud. rewrite F.
  unfold sbind at 1. rewrite flag_value_eq by assumption. rewrite Hv.
  unfold sbind, set_arg_BAUD. rewrite Hi. cbn. rewrite Hq. cbn.
  eexists. split; [reflexivity|]. cbn. split; reflexivity.
Qed.

Lemma invalid_baud_is_not_fatal_witness :
  arg_VERBOSE default_settings = false
  /\ arg_in (str "--baud") argv_bad_baud || arg_in (str "-b") argv_bad_baud = true
  /\ value_after (chosen_flag (str "--baud") (str "-b") argv_bad_baud)
                 argv_bad_baud
     = Some (str "fast")
  /\ py_int (str "fast") = None
  /\ exists c',
       startup_baud argv_bad_baud default_settings = (Go tt, c')
       /\ arg_BAUD c' = BaudStr (str "fast").
Proof.
  split; [reflexivity|].
  split; [reflexivity|]. split; [reflexivity|]. split; [reflexivity|].
  destruct (invalid_baud_is_not_fatal argv_bad_baud default_settings
              (str "fast") eq_refl eq_refl eq_refl eq_refl) as (c' & E & B & _).
  exists c'. split; assumption.
Defined.

Lemma sbind_stop {A B} (m : Startup A) (k : A -> Startup B)
      (c c' : Settings) (r : stop) :
  sbind m k c = (Stop r, c') ->
  m c = (Stop r, c')
  \/ exists a c1, m c = (Go a, c1) /\ k a c1 = (Stop r, c').
Proof.
  unfold sbind. destruct (m c) as [[a|r0] c1]; [eauto|].
  intros [= <- <-]. now left.
Qed.

Lemma flag_stage_stop (long short missing : text) (argv : list text)
      (k : text -> Startup unit) (c c' : Settings) (r : stop) :
  arg_in long argv || arg_in short argv = true ->
  sbind (flag_value long short missing argv) k c = (Stop r, c') ->
  r = StopIndexError \/ exists v, k v c = (Stop r, c').
Proof.
  intros F. unfold sbind. rewrite flag_value_eq by assumption.
  destruct (value_after _ argv) as [v|]; [eauto|].
  intros [= <- <-]. now left.
Qed.

(** The ways [startup] can end before the connection (lines 29-118) when
    verbose mode is off and stays off, so that no text of the command line
    reaches the logger: with status 0, after the help text; with status 1,
    for an output path that is missing or an operating system that is none
    of the three; with [IndexError], for a flag without an argument after
    it; or with the exception of [open], if that is not
    [FileNotFoundError].  The lookups [sys.argv.index] never raise, each
    being guarded by a test of membership. *)
Theorem startup_arguments_stops
        (fs_open : text -> open_result) (argv : list text)
        (c c' : Settings) (r : stop) :
  arg_VERBOSE c = false ->
  arg_in (str "--verbose") argv || arg_in (str "-v") argv = false ->
  startup_arguments fs_open argv c = (Stop r, c') ->
  r = StopExit 0 \/ r = StopExit 1 \/ r = StopIndexError
  \/ exists e, r = StopOpenError e /\ e <> FileNotFoundError.
Proof.
  intros _ _ H. unfold startup_arguments in H.
  apply sbind_stop in H as [H | (u1 & c1 & _ & H)]; [discriminate H|].
  apply sbind_stop in H as [H | (u2 & c2 & _ & H)]; [discriminate H|].
  apply sbind_stop in H as [H | (u3 & c3 & _ & H)].
  { unfold startup_help in H.
    destruct (arg_in (str "-h") argv || arg_in (str "--help") argv);
      [|discriminate H].
    cbn in H. injection H as <- _. now left. }
  apply sbind_stop in H as [H | (u4 & c4 & _ & H)].
  { destruct (startup_verbose_go argv c3) as (cv & Ev & _). congruence. }
  apply sbind_stop in H as [H | (u5 & c5 & _ & H)].
  { unfold startup_output in H.
    destruct (arg_in (str "--output") argv || arg_in (str "-o") argv) eqn:F;
      [|discriminate H].
    apply (flag_stage_stop _ _ _ _ _ _ _ _ F) in H as [-> | (v & H)]; [auto|].
    unfold sbind, set_arg_OUTPUT_DIR in H.
    destruct (fs_open v) as [|e].
    - cbn in H. destruct (arg_VERBOSE c4); discriminate H.
    - destruct e; cbn in H; injection H as <- _;
        [auto | right; right; right; eexists; split;
                [reflexivity | discriminate] ..]. }
  apply sbind_stop in H as [H | (u6 & c6 & _ & H)].
  { unfold startup_baud in H.
    destruct (arg_in (str "--baud") argv || arg_in (str "-b") argv) eqn:F;
      [|discriminate H].
    apply (flag_stage_stop _ _ _ _ _ _ _ _ F) in H as [-> | (v & H)]; [auto|].
    unfold sbind, set_arg_BAUD in H.
    destruct (py_int v); cbn in H; destruct (arg_VERBOSE c5); discriminate H. }
  apply sbind_stop in H as [H | (u7 & c7 & _ & H)].
  { unfold startup_port in H.
    destruct (arg_in (str "--port") argv || arg_in (str "-p") argv) eqn:F;
      [|discriminate H].
    apply (flag_stage_stop _ _ _ _ _ _ _ _ F) in H as [-> | (v & H)]; [auto|].
    unfold sbind, set_arg_PORT in H. cbn in H.
    destruct (arg_VERBOSE c6); discriminate H. }
  unfold startup_os in H.
  destruct (arg_in (str "--os") argv) eqn:F; [|discriminate H].
  assert (F' : arg_in (str "--os") argv || arg_in (str "-o") argv = true)
    by now rewrite F.
  apply (flag_stage_stop _ _ _ _ _ _ _ _ F') in H as [-> | (os & H)]; [auto|].
  unfold sbind at 1 in H.
  destruct (existsb (text_eqb (lower os)) _).
  - cbn [sret] in H. unfold sbind in H.
    destruct (arg_VERBOSE c7);
      destruct (arg_in (str "--port") argv || arg_in (str "-p") argv);
      destruct (os_port (lower os)); discriminate H.
  - unfold sbind in H. cbn in H. injection H as <- _. auto.
Qed.

Lemma startup_arguments_stops_witness :
  arg_VERBOSE default_settings = false
  /\ arg_in (str "--verbose") argv_bad_os || arg_in (str "-v") argv_bad_os = false
  /\ startup_arguments (only_file (str "out")) argv_bad_os default_settings
     = (Stop (StopExit 1),
        snd (startup_arguments (only_file (str "out")) argv_bad_os
                               default_settings))
  /\ (StopExit 1 = StopExit 0 \/ StopExit 1 = StopExit 1
      \/ StopExit 1 = StopIndexError
      \/ exists e, StopExit 1 = StopOpenError e /\ e <> FileNotFoundError).
Proof.
  assert (E : startup_arguments (only_file (str "out")) argv_bad_os
                default_settings
              = (Stop (StopExit 1),
                 snd (startup_arguments (only_file (str "out")) argv_bad_os
                        default_settings)))
    by (vm_compute; reflexivity).
  split; [reflexivity|]. split; [reflexivity|]. split; [exact E|].
  exact (startup_arguments_stops (only_file (str "out")) argv_bad_os
           default_settings _ (StopExit 1) eq_refl eq_refl E).
Defined.


